(** * pygenn.genn_model: the GeNNModel life cycle

    A shallow embedding of [src/pygenn/genn_model.py]: the module-level
    backend import loop and the methods of class [GeNNModel]
    (construction, registration of populations, build, load, the guarded
    device operations and teardown).

    Python objects are mutable and calls into the native layer are opaque,
    so a method is a computation over a machine state that holds the
    instance and a chronological log of everything the method asked of the
    outside world (native superclass, backend module, shared-library
    runtime, subprocesses, warnings).  An exception leaves the mutations
    made so far in place, as in Python. *)

From Stdlib Require Import Ascii String List ZArith Bool Lia.
Import ListNotations.
Local Open Scope string_scope.
Local Open Scope list_scope.

(** String concatenation, kept apart from list append. *)
Infix "+++" := String.append (right associativity, at level 60).

(** ** Python values that cross the API *)

(** An extra global parameter as the population objects expose it:
    [egp_dat.needsAllocation]. *)
Record EGP := { needsAllocation : bool }.

(** A population object (NeuronGroup, SynapseGroup, CurrentSource or
    CustomUpdate).  The class itself lives in the native layer; this file
    only reads its name and its [extra_global_params] dictionary. *)
Record Group := {
  g_name : string;
  extra_global_params : list (string * EGP)
}.

Inductive pyobj :=
| PyNone
| PyBool (b : bool)
| PyInt (z : Z)
| PyStr (s : string)
| PyNeuronGroup (g : Group)
| PySynapseGroup (g : Group)
| PyDict (d : list (string * Group))
| PyOpaque (what : string).

(** ** The outside world

    Every call that leaves this file is recorded as an event: the methods of
    the shared-library runtime [self._slm], the native superclass
    [ModelSpecInternal], the backend module, helper modules, subprocesses
    and [warnings.warn]. *)
Inductive group_kind := Neuron | Synapse | Current | Custom.

Inductive event :=
(* warnings.warn(message, category) *)
| Warn (category message : string)
(* import_module at module level *)
| ImportModule (name : string)
(* self._slm *)
| SlmOpen (path name : string)
| SlmAllocateMem
| SlmAllocateRecordingBuffers (n : Z)
| SlmInitialize
| SlmInitializeSparse
| SlmStepTime
| SlmCustomUpdate (name : string)
| SlmPullConnectivityFromDevice (pop : string)
| SlmPushSpikesToDevice (pop : string)
| SlmPushSpikeEventsToDevice (pop : string)
| SlmPushCurrentSpikesToDevice (pop : string)
| SlmPushCurrentSpikeEventsToDevice (pop : string)
| SlmPushConnectivityToDevice (pop : string)
| SlmPushVarToDevice (pop var : string)
| SlmPushExtraGlobalParam (pop egp : string) (size : Z)
| SlmPullRecordingBuffersFromDevice
| SlmFreeExtraGlobalParam (pop egp : string)
(* model_preprocessor.get_model *)
| GetModel (model : string)
(* super(GeNNModel, self) *)
| SuperAddNeuronPopulation (name : string) (num_neurons : Z)
| SuperAddSynapsePopulation (name source target : string)
| SuperAddCurrentSource (name pop : string)
| SuperAddCustomUpdate (name group : string)
| Finalize
(* methods of population objects *)
| InitGroup (name : string)
| GroupLoadInitEgps (kind : group_kind) (name : string)
| NeuronGroupLoad (name : string) (num_recording_timesteps : option Z)
| GroupLoad (kind : group_kind) (name : string)
(* self._backend_module *)
| Preferences (backend : string)
| CreateBackend (backend output_path : string) (log_level : Z)
    (preferences : list (string * pyobj))
(* code generator and tool chain *)
| GenerateCode (output_path : string) (force_rebuild : bool)
| CheckCall (argv : list string).

(** Exceptions, by Python class.  [ExternalError] is whatever an external
    collaborator raises; it carries the call that raised. *)
Inductive exn :=
| PyException (msg : string)
| ValueError (msg : string)
| KeyError (key : string)
| NameError (name : string)
| AttributeError (attr : string)
| IndexError
| AssertionError
| ExternalError (call : event).

(** ** Dictionaries

    Python dictionaries keep insertion order, and [load] and [end] iterate
    them, so a registry is an association list. *)
Module Dict.

Definition t (V : Type) := list (string * V).

Definition empty {V} : t V := [].

Fixpoint get {V} (k : string) (d : t V) : option V :=
  match d with
  | [] => None
  | (k', v) :: r => if String.eqb k k' then Some v else get k r
  end.

(** [d[k] = v]: an existing key keeps its position. *)
Fixpoint set {V} (k : string) (v : V) (d : t V) : t V :=
  match d with
  | [] => [(k, v)]
  | (k', v') :: r =>
      if String.eqb k k' then (k, v) :: r else (k', v') :: set k v r
  end.

(** [k in d] *)
Definition mem {V} (k : string) (d : t V) : bool :=
  match get k d with Some _ => true | None => false end.

Definition keys {V} (d : t V) : list string := map fst d.
Definition values {V} (d : t V) : list V := map snd d.

End Dict.

(** ** String formatting *)

(** A [str.format] template with positional fields. *)
Inductive fmt_piece :=
| Lit (s : string)
| Field (i : nat).

(** [template.format( *args )]: field [{i}] takes [args[i]] and raises
    IndexError when the tuple is too short. *)
Fixpoint str_format (t : list fmt_piece) (args : list string)
  : exn + string :=
  match t with
  | [] => inr ""
  | Lit s :: r =>
      match str_format r args with
      | inr rest => inr (s +++ rest)
      | inl e => inl e
      end
  | Field i :: r =>
      match nth_error args i with
      | None => inl IndexError
      | Some a =>
          match str_format r args with
          | inr rest => inr (a +++ rest)
          | inl e => inl e
          end
      end
  end.

(** [os.path.join(a, b)] for two components, on a POSIX host. *)
Definition ends_with_slash (a : string) : bool :=
  match String.get (String.length a - 1) a with
  | Some c => Ascii.eqb c "/"%char
  | None => false
  end.

Definition path_join (a b : string) : string :=
  match String.get 0 b with
  | Some c =>
      if Ascii.eqb c "/"%char then b
      else if (String.length a =? 0)%nat then b
      else if ends_with_slash a then a +++ b
      else a +++ "/" +++ b
  | None =>
      if (String.length a =? 0)%nat then b
      else if ends_with_slash a then a
      else a +++ "/"
  end.

(** ** Module level: the backend import loop (lines 66-80) *)

(** A backend module, as far as [GeNNModel] uses it: its name and the
    fields (with defaults) of the object its [Preferences()] returns. *)
Record backend_module := {
  bm_name : string;
  bm_preferences : Dict.t pyobj
}.

(** What [import_module("." + b + "_backend", "pygenn")] does. *)
Inductive import_result :=
| Imported (m : backend_module)
| RaisesImportError
| RaisesOther.

Definition backend_preference : list string :=
  ["cuda"; "single_threaded_cpu"; "opencl"].

(** The [for b in [...]] loop: an ImportError is swallowed, any other
    exception aborts the import of [genn_model] itself, a module that
    imports is appended to the ordered dictionary. *)
Fixpoint import_backends (import_module : string -> import_result)
  (bs : list string) (backend_modules : Dict.t backend_module)
  : exn + Dict.t backend_module :=
  match bs with
  | [] => inr backend_modules
  | b :: rest =>
      match import_module b with
      | RaisesImportError => import_backends import_module rest backend_modules
      | RaisesOther => inl (ExternalError (ImportModule b))
      | Imported m =>
          import_backends import_module rest (Dict.set b m backend_modules)
      end
  end.

(** The global namespace of [genn_model] once its top-level statements
    have run: the imports (lines 42-64), [backend_modules], the loop
    variables [b] and [m] of the import loop ([m] only when some backend
    imported), the class and the module's functions.  Line 57 is
    [from .genn import (...)]: it binds the listed names and not [genn]
    itself.  What a name is bound to does not matter below, so bound
    objects are opaque. *)
Definition module_global_names : list string :=
  [ "OrderedDict"; "import_module"; "path"; "system"; "cpu_count";
    "check_call"; "dedent"; "warn"; "proxy"; "np"; "iteritems";
    "itervalues"; "string_types";
    "CurrentSource"; "ModelSpecInternal"; "NeuronGroup"; "PlogSeverity";
    "SynapseGroup"; "VarLocation";
    "SharedLibraryModelDouble"; "SharedLibraryModelFloat";
    "NeuronGroupMixin"; "get_model"; "neuron_models";
    "backend_modules"; "b"; "m";
    "GeNNModel"; "init_var"; "init_connectivity";
    "init_toeplitz_connectivity"; "create_var_ref"; "create_psm_var_ref";
    "create_wu_pre_var_ref"; "create_wu_post_var_ref"; "create_wu_var_ref";
    "create_custom_neuron_class"; "create_custom_postsynaptic_class";
    "create_custom_weight_update_class";
    "create_custom_current_source_class";
    "create_custom_custom_update_class"; "create_custom_model_class";
    "create_dpf_class"; "create_cmlf_class"; "create_cksf_class";
    "create_custom_init_var_snippet_class";
    "create_custom_sparse_connect_init_snippet_class" ].

Definition module_globals : Dict.t pyobj :=
  map (fun n => (n, PyOpaque n)) module_global_names.

(** ** The instance *)

Inductive SharedLibraryModel :=
| SharedLibraryModelFloat
| SharedLibraryModelDouble.

(** The attributes of a [GeNNModel].  [recording_in_use] and [name] belong
    to the native superclass [ModelSpecInternal]; an attribute that is only
    assigned later in the life cycle is an [option]. *)
Record GeNNModel := {
  recording_in_use : bool;
  name : string;
  _time_precision : string;
  _slm : SharedLibraryModel;
  _built : bool;
  _loaded : bool;
  _backend_name : option string;
  _backend_module : option backend_module;
  _preferences : Dict.t pyobj;
  backend_log_level : Z;
  _path_to_model : option string;
  neuron_populations : Dict.t Group;
  synapse_populations : Dict.t Group;
  current_sources : Dict.t Group;
  custom_updates : Dict.t Group;
  genn_types : Dict.t string
}.

(** Modelled from the spec: the accessor [model_name] of the native
    superclass ModelSpecInternal, which is not part of this file.  The spec
    gives the model one name, handed to the runtime as [open(path, name)]
    and used for the [{modelName}_CODE] directory. *)
Definition model_name (m : GeNNModel) : string := name m.

(** Attribute assignment [self.attr = v], one function per attribute. *)
Definition set_name (v : string) (m : GeNNModel) : GeNNModel :=
  {| recording_in_use := recording_in_use m; name := v;
       _time_precision := _time_precision m; _slm := _slm m;
       _built := _built m; _loaded := _loaded m;
       _backend_name := _backend_name m;
       _backend_module := _backend_module m;
       _preferences := _preferences m;
       backend_log_level := backend_log_level m;
       _path_to_model := _path_to_model m;
       neuron_populations := neuron_populations m;
       synapse_populations := synapse_populations m;
       current_sources := current_sources m;
       custom_updates := custom_updates m; genn_types := genn_types m |}.

Definition set_time_precision (v : string) (m : GeNNModel) : GeNNModel :=
  {| recording_in_use := recording_in_use m; name := name m;
       _time_precision := v; _slm := _slm m;
       _built := _built m; _loaded := _loaded m;
       _backend_name := _backend_name m;
       _backend_module := _backend_module m;
       _preferences := _preferences m;
       backend_log_level := backend_log_level m;
       _path_to_model := _path_to_model m;
       neuron_populations := neuron_populations m;
       synapse_populations := synapse_populations m;
       current_sources := current_sources m;
       custom_updates := custom_updates m; genn_types := genn_types m |}.

Definition set_slm (v : SharedLibraryModel) (m : GeNNModel) : GeNNModel :=
  {| recording_in_use := recording_in_use m; name := name m;
       _time_precision := _time_precision m; _slm := v;
       _built := _built m; _loaded := _loaded m;
       _backend_name := _backend_name m;
       _backend_module := _backend_module m;
       _preferences := _preferences m;
       backend_log_level := backend_log_level m;
       _path_to_model := _path_to_model m;
       neuron_populations := neuron_populations m;
       synapse_populations := synapse_populations m;
       current_sources := current_sources m;
       custom_updates := custom_updates m; genn_types := genn_types m |}.

Definition set_built (v : bool) (m : GeNNModel) : GeNNModel :=
  {| recording_in_use := recording_in_use m; name := name m;
       _time_precision := _time_precision m; _slm := _slm m;
       _built := v; _loaded := _loaded m;
       _backend_name := _backend_name m;
       _backend_module := _backend_module m;
       _preferences := _preferences m;
       backend_log_level := backend_log_level m;
       _path_to_model := _path_to_model m;
       neuron_populations := neuron_populations m;
       synapse_populations := synapse_populations m;
       current_sources := current_sources m;
       custom_updates := custom_updates m; genn_types := genn_types m |}.

Definition set_loaded (v : bool) (m : GeNNModel) : GeNNModel :=
  {| recording_in_use := recording_in_use m; name := name m;
       _time_precision := _time_precision m; _slm := _slm m;
       _built := _built m; _loaded := v;
       _backend_name := _backend_name m;
       _backend_module := _backend_module m;
       _preferences := _preferences m;
       backend_log_level := backend_log_level m;
       _path_to_model := _path_to_model m;
       neuron_populations := neuron_populations m;
       synapse_populations := synapse_populations m;
       current_sources := current_sources m;
       custom_updates := custom_updates m; genn_types := genn_types m |}.

Definition set_backend_name (v : string) (m : GeNNModel) : GeNNModel :=
  {| recording_in_use := recording_in_use m; name := name m;
       _time_precision := _time_precision m; _slm := _slm m;
       _built := _built m; _loaded := _loaded m;
       _backend_name := Some v;
       _backend_module := _backend_module m;
       _preferences := _preferences m;
       backend_log_level := backend_log_level m;
       _path_to_model := _path_to_model m;
       neuron_populations := neuron_populations m;
       synapse_populations := synapse_populations m;
       current_sources := current_sources m;
       custom_updates := custom_updates m; genn_types := genn_types m |}.

Definition set_backend_module (v : backend_module) (m : GeNNModel)
  : GeNNModel :=
  {| recording_in_use := recording_in_use m; name := name m;
       _time_precision := _time_precision m; _slm := _slm m;
       _built := _built m; _loaded := _loaded m;
       _backend_name := _backend_name m;
       _backend_module := Some v;
       _preferences := _preferences m;
       backend_log_level := backend_log_level m;
       _path_to_model := _path_to_model m;
       neuron_populations := neuron_populations m;
       synapse_populations := synapse_populations m;
       current_sources := current_sources m;
       custom_updates := custom_updates m; genn_types := genn_types m |}.

Definition set_preferences (v : Dict.t pyobj) (m : GeNNModel) : GeNNModel :=
  {| recording_in_use := recording_in_use m; name := name m;
       _time_precision := _time_precision m; _slm := _slm m;
       _built := _built m; _loaded := _loaded m;
       _backend_name := _backend_name m;
       _backend_module := _backend_module m;
       _preferences := v;
       backend_log_level := backend_log_level m;
       _path_to_model := _path_to_model m;
       neuron_populations := neuron_populations m;
       synapse_populations := synapse_populations m;
       current_sources := current_sources m;
       custom_updates := custom_updates m; genn_types := genn_types m |}.

Definition set_backend_log_level (v : Z) (m : GeNNModel) : GeNNModel :=
  {| recording_in_use := recording_in_use m; name := name m;
       _time_precision := _time_precision m; _slm := _slm m;
       _built := _built m; _loaded := _loaded m;
       _backend_name := _backend_name m;
       _backend_module := _backend_module m;
       _preferences := _preferences m;
       backend_log_level := v;
       _path_to_model := _path_to_model m;
       neuron_populations := neuron_populations m;
       synapse_populations := synapse_populations m;
       current_sources := current_sources m;
       custom_updates := custom_updates m; genn_types := genn_types m |}.

Definition set_path_to_model (v : string) (m : GeNNModel) : GeNNModel :=
  {| recording_in_use := recording_in_use m; name := name m;
       _time_precision := _time_precision m; _slm := _slm m;
       _built := _built m; _loaded := _loaded m;
       _backend_name := _backend_name m;
       _backend_module := _backend_module m;
       _preferences := _preferences m;
       backend_log_level := backend_log_level m;
       _path_to_model := Some v;
       neuron_populations := neuron_populations m;
       synapse_populations := synapse_populations m;
       current_sources := current_sources m;
       custom_updates := custom_updates m; genn_types := genn_types m |}.

Definition set_neuron_populations (v : Dict.t Group) (m : GeNNModel)
  : GeNNModel :=
  {| recording_in_use := recording_in_use m; name := name m;
       _time_precision := _time_precision m; _slm := _slm m;
       _built := _built m; _loaded := _loaded m;
       _backend_name := _backend_name m;
       _backend_module := _backend_module m;
       _preferences := _preferences m;
       backend_log_level := backend_log_level m;
       _path_to_model := _path_to_model m;
       neuron_populations := v;
       synapse_populations := synapse_populations m;
       current_sources := current_sources m;
       custom_updates := custom_updates m; genn_types := genn_types m |}.

Definition set_synapse_populations (v : Dict.t Group) (m : GeNNModel)
  : GeNNModel :=
  {| recording_in_use := recording_in_use m; name := name m;
       _time_precision := _time_precision m; _slm := _slm m;
       _built := _built m; _loaded := _loaded m;
       _backend_name := _backend_name m;
       _backend_module := _backend_module m;
       _preferences := _preferences m;
       backend_log_level := backend_log_level m;
       _path_to_model := _path_to_model m;
       neuron_populations := neuron_populations m;
       synapse_populations := v;
       current_sources := current_sources m;
       custom_updates := custom_updates m; genn_types := genn_types m |}.

Definition set_current_sources (v : Dict.t Group) (m : GeNNModel)
  : GeNNModel :=
  {| recording_in_use := recording_in_use m; name := name m;
       _time_precision := _time_precision m; _slm := _slm m;
       _built := _built m; _loaded := _loaded m;
       _backend_name := _backend_name m;
       _backend_module := _backend_module m;
       _preferences := _preferences m;
       backend_log_level := backend_log_level m;
       _path_to_model := _path_to_model m;
       neuron_populations := neuron_populations m;
       synapse_populations := synapse_populations m;
       current_sources := v;
       custom_updates := custom_updates m; genn_types := genn_types m |}.

Definition set_custom_updates (v : Dict.t Group) (m : GeNNModel)
  : GeNNModel :=
  {| recording_in_use := recording_in_use m; name := name m;
       _time_precision := _time_precision m; _slm := _slm m;
       _built := _built m; _loaded := _loaded m;
       _backend_name := _backend_name m;
       _backend_module := _backend_module m;
       _preferences := _preferences m;
       backend_log_level := backend_log_level m;
       _path_to_model := _path_to_model m;
       neuron_populations := neuron_populations m;
       synapse_populations := synapse_populations m;
       current_sources := current_sources m;
       custom_updates := v; genn_types := genn_types m |}.

Definition set_genn_types (v : Dict.t string) (m : GeNNModel) : GeNNModel :=
  {| recording_in_use := recording_in_use m; name := name m;
       _time_precision := _time_precision m; _slm := _slm m;
       _built := _built m; _loaded := _loaded m;
       _backend_name := _backend_name m;
       _backend_module := _backend_module m;
       _preferences := _preferences m;
       backend_log_level := backend_log_level m;
       _path_to_model := _path_to_model m;
       neuron_populations := neuron_populations m;
       synapse_populations := synapse_populations m;
       current_sources := current_sources m;
       custom_updates := custom_updates m; genn_types := v |}.

(** ** Computations

    A method runs on a machine: the instance and the log of events so far.
    It returns a value or raises, and in both cases hands back the machine
    as it left it. *)
Record machine := {
  self : GeNNModel;
  log : list event
}.

Inductive result (A : Type) :=
| Ok (a : A)
| Raise (e : exn).

Arguments Ok {A} a.
Arguments Raise {A} e.

Definition M (A : Type) : Type := machine -> result A * machine.

Definition ret {A} (a : A) : M A := fun s => (Ok a, s).

Definition raise {A} (e : exn) : M A := fun s => (Raise e, s).

Definition bind {A B} (c : M A) (k : A -> M B) : M B :=
  fun s =>
    match c s with
    | (Ok a, s') => k a s'
    | (Raise e, s') => (Raise e, s')
    end.

Declare Scope py_scope.
Delimit Scope py_scope with py.
Notation "x <- c ;; k" := (bind c (fun x => k))
  (at level 61, c at next level, right associativity) : py_scope.
Notation "c ;; k" := (bind c (fun _ => k))
  (at level 61, right associativity) : py_scope.
Local Open Scope py_scope.

(** [self.attr] *)
Definition getattr {A} (f : GeNNModel -> A) : M A :=
  fun s => (Ok (f (self s)), s).

(** [self.attr = v] *)
Definition setattr (f : GeNNModel -> GeNNModel) : M unit :=
  fun s => (Ok tt, {| self := f (self s); log := log s |}).

(** An attribute that may not have been assigned yet. *)
Definition getattr_opt {A} (attr : string) (f : GeNNModel -> option A) : M A :=
  fun s =>
    match f (self s) with
    | Some v => (Ok v, s)
    | None => (Raise (AttributeError attr), s)
    end.

(** An event that cannot fail. *)
Definition emit (ev : event) : M unit :=
  fun s => (Ok tt, {| self := self s; log := log s ++ [ev] |}).

Definition lift {A} (r : exn + A) : M A :=
  match r with
  | inr a => ret a
  | inl e => raise e
  end.

(** [d[k]] *)
Definition subscript {V} (d : Dict.t V) (k : string) : M V :=
  match Dict.get k d with
  | Some v => ret v
  | None => raise (KeyError k)
  end.

(** A bare name inside a method that is not a local: looked up in the
    module's globals (no builtin is called [genn] or [custom_updates]). *)
Definition load_global (n : string) : M pyobj :=
  match Dict.get n module_globals with
  | Some v => ret v
  | None => raise (NameError n)
  end.

(** [six.iteritems(d)] *)
Definition iteritems (d : pyobj) : M (list (string * Group)) :=
  match d with
  | PyDict items => ret items
  | _ => raise (AttributeError "items")
  end.

(** [for x in xs: body(x)] *)
Fixpoint for_each {A} (xs : list A) (body : A -> M unit) : M unit :=
  match xs with
  | [] => ret tt
  | x :: rest => body x ;; for_each rest body
  end.

(** The host and the behaviour of the external collaborators: whether a
    call raises may depend on everything that happened before it. *)
Record Env := {
  raises : list event -> event -> bool;
  (* platform.system() *)
  system : string;
  (* str(psutil.cpu_count(logical=False)) *)
  physical_cores : string
}.

(** [warnings.warn(message, category)] under the default filters. *)
Definition warn (message category : string) : M unit :=
  emit (Warn category message).

(** Modelled from the spec: a model-kind descriptor.  The model classes
    only forward to native code ([get_extra_global_params] of the wrapper
    modules), and genn_groups, which builds a population's
    [extra_global_params] from them, is not among the sources.  The spec
    gives a descriptor "optional extra global parameters", each with its
    allocation-ownership flag, and the population built from the
    descriptor carries them. *)
Record ModelDescriptor := {
  md_name : string;
  md_extra_global_params : Dict.t EGP
}.

(** Modelled from the spec: the population object the native
    registration returns for a name and a descriptor. *)
Definition new_group (pop_name : string) (model : ModelDescriptor) : Group :=
  {| g_name := pop_name;
     extra_global_params := md_extra_global_params model |}.

(** ** class GeNNModel *)
Section Methods.

Variable env : Env.

(** The module-level ordered dictionary the class refers to. *)
Variable backend_modules : Dict.t backend_module.

(** A call to an external collaborator: logged, then it returns or
    raises as the environment decides. *)
Definition call (ev : event) : M unit :=
  fun s =>
    let s' := {| self := self s; log := log s ++ [ev] |} in
    if raises env (log s) ev then (Raise (ExternalError ev), s')
    else (Ok tt, s').

(** [backend_name.setter] (lines 191-206) *)
Definition backend_name_setter (backend_name : option string) : M unit :=
  built <- getattr _built ;;
  if built then raise (PyException "GeNN model already built")
  else
    match backend_name with
    | None =>
        (* assert len(backend_modules) > 0, next(iter(backend_modules)) *)
        match Dict.keys backend_modules with
        | [] => raise AssertionError
        | first :: _ =>
            setattr (set_backend_name first) ;;
            m <- subscript backend_modules first ;;
            setattr (set_backend_module m)
        end
    | Some n =>
        setattr (set_backend_name n) ;;
        m <- subscript backend_modules n ;;
        setattr (set_backend_module m)
    end.

(** The message template of line 125: its only field is [{1}]. *)
Definition time_precision_message : list fmt_piece :=
  [ Lit "Supported time precisions are float and double, but '";
    Field 1; Lit "' was given" ].

Definition initial_genn_types : Dict.t string :=
  [ ("float", "float32"); ("double", "float64"); ("int", "int32");
    ("unsigned int", "uint32"); ("short", "int16");
    ("unsigned short", "uint16"); ("char", "int8");
    ("unsigned char", "uint8"); ("uint64_t", "uint64");
    ("int64_t", "int64"); ("uint32_t", "uint32"); ("int32_t", "int32");
    ("uint16_t", "uint16"); ("int16_t", "int16"); ("uint8_t", "uint8");
    ("int8_t", "int8") ].

(** [__init__] (lines 90-185).  The two GeNN log levels are only used
    inside the string literal of lines 129-143, which also holds the
    check of [precision]; that literal is an expression statement and
    does nothing. *)
Definition __init__ (precision model_name : string)
  (backend time_precision : option string) (backend_log_level : Z)
  (preference_kwargs : Dict.t pyobj) : M unit :=
  let tp := match time_precision with
            | None => precision
            | Some t => t
            end in
  setattr (set_time_precision tp) ;;
  tp <- getattr _time_precision ;;
  (if String.eqb tp "float" then setattr (set_slm SharedLibraryModelFloat)
   else if String.eqb tp "double" then
     setattr (set_slm SharedLibraryModelDouble)
   else
     msg <- lift (str_format time_precision_message [tp]) ;;
     raise (ValueError msg)) ;;
  setattr (set_built false) ;;
  setattr (set_loaded false) ;;
  backend_name_setter backend ;;
  setattr (set_preferences preference_kwargs) ;;
  setattr (set_backend_log_level backend_log_level) ;;
  setattr (set_name model_name) ;;
  setattr (set_neuron_populations Dict.empty) ;;
  setattr (set_synapse_populations Dict.empty) ;;
  setattr (set_current_sources Dict.empty) ;;
  setattr (set_custom_updates Dict.empty) ;;
  setattr (set_genn_types initial_genn_types) ;;
  types <- getattr genn_types ;;
  (if String.eqb precision "float" then
     v <- subscript types "float" ;;
     setattr (set_genn_types (Dict.set "scalar" v types))
   else
     v <- subscript types "double" ;;
     setattr (set_genn_types (Dict.set "scalar" v types))).

(** The object [__init__] receives: created by [super().__init__()], no
    attribute of [GeNNModel] assigned yet (the placeholders are all
    overwritten before they are read).  Modelled from the spec: recording
    is a feature populations use, and a new description has no population,
    so [recording_in_use] starts false. *)
Definition new_instance : GeNNModel :=
  {| recording_in_use := false; name := "";
     _time_precision := ""; _slm := SharedLibraryModelFloat;
     _built := false; _loaded := false;
     _backend_name := None; _backend_module := None;
     _preferences := Dict.empty; backend_log_level := 0%Z;
     _path_to_model := None;
     neuron_populations := Dict.empty; synapse_populations := Dict.empty;
     current_sources := Dict.empty; custom_updates := Dict.empty;
     genn_types := Dict.empty |}.

(** [GeNNModel(...)]: the caller gets the instance only when [__init__]
    returns. *)
Definition construct (precision model_name : string)
  (backend time_precision : option string) (backend_log_level : Z)
  (preference_kwargs : Dict.t pyobj) : result GeNNModel :=
  match __init__ precision model_name backend time_precision
          backend_log_level preference_kwargs
          {| self := new_instance; log := [] |} with
  | (Ok _, s) => Ok (self s)
  | (Raise e, _) => Raise e
  end.

(** [_validate_neuron_group] (lines 630-645) *)
Definition _validate_neuron_group (group : pyobj) (context : string)
  : M Group :=
  match group with
  | PyStr group =>
      registry <- getattr neuron_populations ;;
      if Dict.mem group registry then subscript registry group
      else raise (ValueError ("'" +++ context +++ "' neuron group '"
                              +++ group +++ "' not found"))
  | PyNeuronGroup g => ret g
  | _ => raise (ValueError ("'" +++ context
                            +++ "' must be a NeuronGroup or string"))
  end.

(** [add_neuron_population] (lines 261-290).  Here and below the
    parameter and variable spaces are handed to the native layer
    untouched and are left out. *)
Definition add_neuron_population (pop_name : string) (num_neurons : Z)
  (neuron : ModelDescriptor) : M Group :=
  built <- getattr _built ;;
  if built then raise (PyException "GeNN model already built")
  else
    call (GetModel (md_name neuron)) ;;
    call (SuperAddNeuronPopulation pop_name num_neurons) ;;
    let n_group := new_group pop_name neuron in
    call (InitGroup pop_name) ;;
    registry <- getattr neuron_populations ;;
    setattr (set_neuron_populations (Dict.set pop_name n_group registry)) ;;
    ret n_group.

(** [add_synapse_population] (lines 292-351) *)
Definition add_synapse_population (pop_name matrix_type : string)
  (delay_steps : Z) (source target : pyobj)
  (w_update_model postsyn_model : ModelDescriptor) : M Group :=
  built <- getattr _built ;;
  if built then raise (PyException "GeNN model already built")
  else
    source <- _validate_neuron_group source "source" ;;
    target <- _validate_neuron_group target "target" ;;
    call (SuperAddSynapsePopulation pop_name (g_name source)
            (g_name target)) ;;
    let s_group := new_group pop_name w_update_model in
    registry <- getattr synapse_populations ;;
    setattr (set_synapse_populations (Dict.set pop_name s_group registry)) ;;
    ret s_group.

(** [add_current_source] (lines 353-386) *)
Definition add_current_source (cs_name : string)
  (current_source_model : ModelDescriptor) (pop : pyobj) : M Group :=
  built <- getattr _built ;;
  if built then raise (PyException "GeNN model already built")
  else
    pop <- _validate_neuron_group pop "pop" ;;
    call (SuperAddCurrentSource cs_name (g_name pop)) ;;
    let c_source := new_group cs_name current_source_model in
    registry <- getattr current_sources ;;
    setattr (set_current_sources (Dict.set cs_name c_source registry)) ;;
    ret c_source.

(** [add_custom_update] (lines 388-418) *)
Definition add_custom_update (cu_name group_name : string)
  (custom_update_model : ModelDescriptor) : M Group :=
  built <- getattr _built ;;
  if built then raise (PyException "GeNN model already built")
  else
    call (SuperAddCustomUpdate cu_name group_name) ;;
    let c_update := new_group cu_name custom_update_model in
    registry <- getattr custom_updates ;;
    setattr (set_custom_updates (Dict.set cu_name c_update registry)) ;;
    ret c_update.

(** [build] (lines 420-466).  [genn] in [genn.generate_code] is a bare
    name; the result of the code generator is opaque; [share_path] only
    travels to the code generator and is left out. *)
Definition build (path_to_model : string) (force_rebuild : bool)
  : M pyobj :=
  built <- getattr _built ;;
  if built then raise (PyException "GeNN model already built")
  else
    setattr (set_path_to_model path_to_model) ;;
    mname <- getattr model_name ;;
    let output_path := path_join path_to_model (mname +++ "_CODE") in
    call Finalize ;;
    backend_module <- getattr_opt "_backend_module" _backend_module ;;
    call (Preferences (bm_name backend_module)) ;;
    kwargs <- getattr _preferences ;;
    (* for k, v in kwargs: if hasattr(preferences, k): setattr(...) *)
    let preferences :=
      fold_left (fun prefs kv =>
                   if Dict.mem (fst kv) prefs
                   then Dict.set (fst kv) (snd kv) prefs
                   else prefs)
                kwargs (bm_preferences backend_module) in
    level <- getattr backend_log_level ;;
    call (CreateBackend (bm_name backend_module) output_path level
            preferences) ;;
    _ <- load_global "genn" ;;
    call (GenerateCode output_path force_rebuild) ;;
    (if String.eqb (system env) "Windows" then
       call (CheckCall [ "msbuild"; "/p:Configuration=Release"; "/m";
                         "/verbosity:minimal";
                         path_join output_path "runner.vcxproj" ])
     else
       call (CheckCall [ "make"; "-j"; physical_cores env; "-C";
                         output_path ])) ;;
    setattr (set_built true) ;;
    ret (PyOpaque "mem_alloc").

(** [load] (lines 468-530) *)
Definition load (path_to_model : string)
  (num_recording_timesteps : option Z) : M unit :=
  loaded <- getattr _loaded ;;
  if loaded then raise (PyException "GeNN model already loaded")
  else
    setattr (set_path_to_model path_to_model) ;;
    path <- getattr_opt "_path_to_model" _path_to_model ;;
    mname <- getattr model_name ;;
    call (SlmOpen path mname) ;;
    call SlmAllocateMem ;;
    recording <- getattr recording_in_use ;;
    (if recording then
       match num_recording_timesteps with
       | None =>
           raise (PyException
                    ("Cannot use recording system without passing "
                     +++ "number of recording timesteps to GeNNModel.load"))
       | Some n => call (SlmAllocateRecordingBuffers n)
       end
     else ret tt) ;;
    neurons <- getattr neuron_populations ;;
    for_each (Dict.values neurons)
      (fun pop_data => call (GroupLoadInitEgps Neuron (g_name pop_data))) ;;
    synapses <- getattr synapse_populations ;;
    for_each (Dict.values synapses)
      (fun pop_data => call (GroupLoadInitEgps Synapse (g_name pop_data))) ;;
    sources <- getattr current_sources ;;
    for_each (Dict.values sources)
      (fun src_data => call (GroupLoadInitEgps Current (g_name src_data))) ;;
    updates <- getattr custom_updates ;;
    for_each (Dict.values updates)
      (fun cu_data => call (GroupLoadInitEgps Custom (g_name cu_data))) ;;
    call SlmInitialize ;;
    neurons <- getattr neuron_populations ;;
    for_each (Dict.values neurons)
      (fun pop_data =>
         call (NeuronGroupLoad (g_name pop_data) num_recording_timesteps)) ;;
    synapses <- getattr synapse_populations ;;
    for_each (Dict.values synapses)
      (fun pop_data => call (GroupLoad Synapse (g_name pop_data))) ;;
    sources <- getattr current_sources ;;
    for_each (Dict.values sources)
      (fun src_data => call (GroupLoad Current (g_name src_data))) ;;
    updates <- getattr custom_updates ;;
    for_each (Dict.values updates)
      (fun cu_data => call (GroupLoad Custom (g_name cu_data))) ;;
    call SlmInitializeSparse ;;
    setattr (set_loaded true) ;;
    setattr (set_built true).

(** [step_time] (lines 532-537) *)
Definition step_time : M unit :=
  loaded <- getattr _loaded ;;
  if negb loaded then
    raise (PyException "GeNN model has to be loaded before stepping")
  else call SlmStepTime.

(** [custom_update] (lines 539-544) *)
Definition custom_update (name : string) : M unit :=
  loaded <- getattr _loaded ;;
  if negb loaded then
    raise (PyException
             "GeNN model has to be loaded before performing custom update")
  else call (SlmCustomUpdate name).

(** [pull_connectivity_from_device] (lines 546-551) *)
Definition pull_connectivity_from_device (pop_name : string) : M unit :=
  loaded <- getattr _loaded ;;
  if negb loaded then
    raise (PyException "GeNN model has to be loaded before pulling")
  else call (SlmPullConnectivityFromDevice pop_name).

(** [push_spikes_to_device] (lines 553-558) *)
Definition push_spikes_to_device (pop_name : string) : M unit :=
  loaded <- getattr _loaded ;;
  if negb loaded then
    raise (PyException "GeNN model has to be loaded before pushing")
  else call (SlmPushSpikesToDevice pop_name).

(** [push_spike_events_to_device] (lines 560-565) *)
Definition push_spike_events_to_device (pop_name : string) : M unit :=
  loaded <- getattr _loaded ;;
  if negb loaded then
    raise (PyException "GeNN model has to be loaded before pushing")
  else call (SlmPushSpikeEventsToDevice pop_name).

(** [push_current_spikes_to_device] (lines 567-572) *)
Definition push_current_spikes_to_device (pop_name : string) : M unit :=
  loaded <- getattr _loaded ;;
  if negb loaded then
    raise (PyException "GeNN model has to be loaded before pushing")
  else call (SlmPushCurrentSpikesToDevice pop_name).

(** [push_current_spike_events_to_device] (lines 574-579) *)
Definition push_current_spike_events_to_device (pop_name : string)
  : M unit :=
  loaded <- getattr _loaded ;;
  if negb loaded then
    raise (PyException "GeNN model has to be loaded before pushing")
  else call (SlmPushCurrentSpikeEventsToDevice pop_name).

(** [push_connectivity_to_device] (lines 581-586) *)
Definition push_connectivity_to_device (pop_name : string) : M unit :=
  loaded <- getattr _loaded ;;
  if negb loaded then
    raise (PyException "GeNN model has to be loaded before pushing")
  else call (SlmPushConnectivityToDevice pop_name).

(** [push_var_to_device] (lines 588-593) *)
Definition push_var_to_device (pop_name var_name : string) : M unit :=
  loaded <- getattr _loaded ;;
  if negb loaded then
    raise (PyException "GeNN model has to be loaded before pushing")
  else call (SlmPushVarToDevice pop_name var_name).

(** [push_extra_global_param_to_device] (lines 595-605) *)
Definition push_extra_global_param_to_device (pop_name egp_name : string)
  (size : option Z) : M unit :=
  size <- match size with
          | None =>
              warn ("The default of size=1 is very counter-intuitive and "
                    +++ "will be removed in future") "DeprecationWarning" ;;
              ret 1%Z
          | Some n => ret n
          end ;;
  loaded <- getattr _loaded ;;
  if negb loaded then
    raise (PyException "GeNN model has to be loaded before pushing")
  else call (SlmPushExtraGlobalParam pop_name egp_name size).

(** [pull_recording_buffers_from_device] (lines 607-616) *)
Definition pull_recording_buffers_from_device : M unit :=
  loaded <- getattr _loaded ;;
  if negb loaded then
    raise (PyException
             "GeNN model has to be loaded before pulling recording buffers")
  else
    recording <- getattr recording_in_use ;;
    if negb recording then
      raise (PyException
               "Cannot pull recording buffer if recording system is not in use")
    else call SlmPullRecordingBuffersFromDevice.

(** The innermost loops of [end] (lines 622-627): free the extra global
    parameters of every group of one registry that need allocation. *)
Definition free_group_egps (group : list (string * Group)) : M unit :=
  for_each group (fun g =>
    for_each (extra_global_params (snd g)) (fun egp =>
      if needsAllocation (snd egp) then
        call (SlmFreeExtraGlobalParam (fst g) (fst egp))
      else ret tt)).

(** [end] (lines 618-628).  The list display of lines 620-621 is
    evaluated first, element by element; its last element is the bare
    name [custom_updates]. *)
Definition end_ : M unit :=
  neurons <- getattr neuron_populations ;;
  synapses <- getattr synapse_populations ;;
  sources <- getattr current_sources ;;
  updates <- load_global "custom_updates" ;;
  for_each [PyDict neurons; PyDict synapses; PyDict sources; updates]
    (fun group => items <- iteritems group ;; free_group_egps items).

End Methods.

(** ** Sequences of calls on one instance *)

(** The device-facing operations of the class. *)
Inductive device_op :=
| StepTime
| CustomUpdate (name : string)
| PullConnectivityFromDevice (pop_name : string)
| PushSpikesToDevice (pop_name : string)
| PushSpikeEventsToDevice (pop_name : string)
| PushCurrentSpikesToDevice (pop_name : string)
| PushCurrentSpikeEventsToDevice (pop_name : string)
| PushConnectivityToDevice (pop_name : string)
| PushVarToDevice (pop_name var_name : string)
| PushExtraGlobalParamToDevice (pop_name egp_name : string) (size : option Z)
| PullRecordingBuffersFromDevice.

Definition run_device_op (env : Env) (d : device_op) : M unit :=
  match d with
  | StepTime => step_time env
  | CustomUpdate name => custom_update env name
  | PullConnectivityFromDevice p => pull_connectivity_from_device env p
  | PushSpikesToDevice p => push_spikes_to_device env p
  | PushSpikeEventsToDevice p => push_spike_events_to_device env p
  | PushCurrentSpikesToDevice p => push_current_spikes_to_device env p
  | PushCurrentSpikeEventsToDevice p =>
      push_current_spike_events_to_device env p
  | PushConnectivityToDevice p => push_connectivity_to_device env p
  | PushVarToDevice p v => push_var_to_device env p v
  | PushExtraGlobalParamToDevice p e size =>
      push_extra_global_param_to_device env p e size
  | PullRecordingBuffersFromDevice => pull_recording_buffers_from_device env
  end.

(** A call of a public method, with its arguments. *)
Inductive op :=
| SetBackendName (backend_name : option string)
| AddNeuronPopulation (pop_name : string) (num_neurons : Z)
    (neuron : ModelDescriptor)
| AddSynapsePopulation (pop_name matrix_type : string) (delay_steps : Z)
    (source target : pyobj) (w_update_model postsyn_model : ModelDescriptor)
| AddCurrentSource (cs_name : string) (current_source_model : ModelDescriptor)
    (pop : pyobj)
| AddCustomUpdate (cu_name group_name : string)
    (custom_update_model : ModelDescriptor)
| Build (path_to_model : string) (force_rebuild : bool)
| Load (path_to_model : string) (num_recording_timesteps : option Z)
| Device (d : device_op)
| End.

(** The call as a statement: the returned value is dropped. *)
Definition void {A} (c : M A) : M unit :=
  fun s => match c s with
           | (Ok _, s') => (Ok tt, s')
           | (Raise e, s') => (Raise e, s')
           end.

Definition run_op (env : Env) (backend_modules : Dict.t backend_module)
  (o : op) : M unit :=
  match o with
  | SetBackendName b => backend_name_setter backend_modules b
  | AddNeuronPopulation p n neuron =>
      void (add_neuron_population env p n neuron)
  | AddSynapsePopulation p mt d src tgt wu ps =>
      void (add_synapse_population env p mt d src tgt wu ps)
  | AddCurrentSource c model pop => void (add_current_source env c model pop)
  | AddCustomUpdate c g model => void (add_custom_update env c g model)
  | Build p f => void (build env p f)
  | Load p n => load env p n
  | Device d => run_device_op env d
  | End => end_ env
  end.

Definition is_ok {A} (r : result A) : bool :=
  match r with
  | Ok _ => true
  | Raise _ => false
  end.

Definition is_build (o : op) : bool :=
  match o with
  | Build _ _ => true
  | _ => false
  end.

(** A script of calls whose exceptions the caller catches: the number of
    [build] calls in it that return. *)
Fixpoint build_successes (env : Env) (backend_modules : Dict.t backend_module)
  (ops : list op) (s : machine) : nat :=
  match ops with
  | [] => 0
  | o :: rest =>
      let (r, s') := run_op env backend_modules o s in
      (if is_build o && is_ok r then 1 else 0)
      + build_successes env backend_modules rest s'
  end.

(** ** Reading the log *)

(** The sizes of the recording buffers the runtime was asked to allocate. *)
Fixpoint recording_allocations (l : list event) : list Z :=
  match l with
  | [] => []
  | SlmAllocateRecordingBuffers n :: r => n :: recording_allocations r
  | _ :: r => recording_allocations r
  end.

(** Calls into the shared-library runtime [self._slm]. *)
Definition is_slm (e : event) : bool :=
  match e with
  | SlmOpen _ _ | SlmAllocateMem | SlmAllocateRecordingBuffers _
  | SlmInitialize | SlmInitializeSparse | SlmStepTime | SlmCustomUpdate _
  | SlmPullConnectivityFromDevice _ | SlmPushSpikesToDevice _
  | SlmPushSpikeEventsToDevice _ | SlmPushCurrentSpikesToDevice _
  | SlmPushCurrentSpikeEventsToDevice _ | SlmPushConnectivityToDevice _
  | SlmPushVarToDevice _ _ | SlmPushExtraGlobalParam _ _ _
  | SlmPullRecordingBuffersFromDevice | SlmFreeExtraGlobalParam _ _ => true
  | _ => false
  end.

Definition runtime_calls (l : list event) : list event := filter is_slm l.

(** The warning of lines 598-599, as it appears in the log. *)
Definition size_default_warning : event :=
  Warn "DeprecationWarning"
    "The default of size=1 is very counter-intuitive and will be removed in future".

(** ** Reading the import loop *)

Definition is_imported (import_module : string -> import_result)
  (b : string) : bool :=
  match import_module b with
  | Imported _ => true
  | _ => false
  end.

(** The time precision [__init__] checks: [time_precision], or
    [precision] when it is not given. *)
Definition checked_precision (precision : string)
  (time_precision : option string) : string :=
  match time_precision with
  | None => precision
  | Some t => t
  end.

(** The frees the loops of [end] ask of the runtime for one registry. *)
Definition frees_of (group : list (string * Group)) : list event :=
  flat_map (fun g =>
              map (fun egp => SlmFreeExtraGlobalParam (fst g) (fst egp))
                  (filter (fun egp => needsAllocation (snd egp))
                          (extra_global_params (snd g))))
           group.

(** The log of [s] begins with [l]. *)
Definition extends (l : list event) (s : machine) : Prop :=
  exists rest, log s = l ++ rest.

(** The shared-library runtime never raises on this host. *)
Definition runtime_reliable (env : Env) : Prop :=
  forall h c, is_slm c = true -> raises env h c = false.

(** No external collaborator raises on this host. *)
Definition never_raises (env : Env) : Prop :=
  forall h c, raises env h c = false.

(** ** Weakest preconditions *)

Definition wp {A} (c : M A) (Q : result A -> machine -> Prop) (s : machine)
  : Prop :=
  Q (fst (c s)) (snd (c s)).

(** The machine after one more event. *)
Definition logged (ev : event) (s : machine) : machine :=
  {| self := self s; log := log s ++ [ev] |}.

(** ** Concrete hosts, backends and instances *)
Module Sample.

(** A host on which no external call raises. *)
Definition cooperative : Env :=
  {| raises := fun _ _ => false; system := "Linux"; physical_cores := "4" |}.

(** A host on which the native [finalize] raises. *)
Definition finalize_fails : Env :=
  {| raises := fun _ e => match e with Finalize => true | _ => false end;
     system := "Linux"; physical_cores := "4" |}.

Definition cuda : backend_module :=
  {| bm_name := "cuda"; bm_preferences := [("debugCode", PyBool false)] |}.

Definition cpu : backend_module :=
  {| bm_name := "single_threaded_cpu";
     bm_preferences := [("debugCode", PyBool false)] |}.

(** A host without CUDA and OpenCL. *)
Definition import_cpu_only (b : string) : import_result :=
  if String.eqb b "single_threaded_cpu" then Imported cpu
  else RaisesImportError.

(** A host with every backend but OpenCL. *)
Definition import_cuda_cpu (b : string) : import_result :=
  if String.eqb b "cuda" then Imported cuda
  else if String.eqb b "single_threaded_cpu" then Imported cpu
  else RaisesImportError.

(** A host on which no backend imports. *)
Definition import_none (b : string) : import_result := RaisesImportError.

Definition backends : Dict.t backend_module :=
  [("single_threaded_cpu", cpu)].

(** [GeNNModel("float", "GeNNModel")] on the CPU-only host. *)
Definition fresh : GeNNModel :=
  {| recording_in_use := false; name := "GeNNModel";
     _time_precision := "float"; _slm := SharedLibraryModelFloat;
     _built := false; _loaded := false;
     _backend_name := Some "single_threaded_cpu";
     _backend_module := Some cpu;
     _preferences := []; backend_log_level := 0%Z;
     _path_to_model := None;
     neuron_populations := []; synapse_populations := [];
     current_sources := []; custom_updates := [];
     genn_types := Dict.set "scalar" "float32" initial_genn_types |}.

(** The same instance once [load] has returned. *)
Definition loaded : GeNNModel :=
  set_built true (set_loaded true (set_path_to_model "./" fresh)).

(** An instance whose description uses the recording system. *)
Definition recording : GeNNModel :=
  {| recording_in_use := true; name := "GeNNModel";
     _time_precision := "float"; _slm := SharedLibraryModelFloat;
     _built := false; _loaded := false;
     _backend_name := Some "single_threaded_cpu";
     _backend_module := Some cpu;
     _preferences := []; backend_log_level := 0%Z;
     _path_to_model := None;
     neuron_populations := []; synapse_populations := [];
     current_sources := []; custom_updates := [];
     genn_types := Dict.set "scalar" "float32" initial_genn_types |}.

Definition start (m : GeNNModel) : machine := {| self := m; log := [] |}.

(** A neuron model with one extra global parameter the runtime
    allocates and one the caller manages. *)
Definition neuron_with_egps : ModelDescriptor :=
  {| md_name := "Poisson";
     md_extra_global_params :=
       [("rates", {| needsAllocation := true |});
        ("table", {| needsAllocation := false |})] |}.

Definition plain_model : ModelDescriptor :=
  {| md_name := "Plain"; md_extra_global_params := [] |}.

(** A neuron group that belongs to another model instance. *)
Definition foreign_group : Group :=
  {| g_name := "elsewhere"; extra_global_params := [] |}.

(** The ordered dictionary the import loop builds on the host with CUDA
    and the CPU backend. *)
Definition backends_cuda_cpu : Dict.t backend_module :=
  [("cuda", cuda); ("single_threaded_cpu", cpu)].

(** The fresh instance after
    [add_neuron_population("pop", 10, neuron_with_egps, ...)]. *)
Definition with_egps : GeNNModel :=
  set_neuron_populations [("pop", new_group "pop" neuron_with_egps)] fresh.

(** What [GeNNModel(precision="half", time_precision="float")] returns
    on the CPU-only host. *)
Definition half_precision : GeNNModel :=
  set_genn_types (Dict.set "scalar" "float64" initial_genn_types) fresh.

End Sample.

(** ** More of class GeNNModel *)

(** [_validate_synapse_group] (lines 647-662) *)
Definition _validate_synapse_group (group : pyobj) (context : string)
  : M Group :=
  match group with
  | PyStr group =>
      registry <- getattr synapse_populations ;;
      if Dict.mem group registry then subscript registry group
      else raise (ValueError ("'" +++ context +++ "' synapse group '"
                              +++ group +++ "' not found"))
  | PySynapseGroup g => ret g
  | _ => raise (ValueError ("'" +++ context
                            +++ "' must be a SynapseGroup or string"))
  end.




(** The runtime primitive a device operation forwards to, with the
    arguments it passes. *)
Definition runtime_call_of (d : device_op) : event :=
  match d with
  | StepTime => SlmStepTime
  | CustomUpdate name => SlmCustomUpdate name
  | PullConnectivityFromDevice p => SlmPullConnectivityFromDevice p
  | PushSpikesToDevice p => SlmPushSpikesToDevice p
  | PushSpikeEventsToDevice p => SlmPushSpikeEventsToDevice p
  | PushCurrentSpikesToDevice p => SlmPushCurrentSpikesToDevice p
  | PushCurrentSpikeEventsToDevice p => SlmPushCurrentSpikeEventsToDevice p
  | PushConnectivityToDevice p => SlmPushConnectivityToDevice p
  | PushVarToDevice p v => SlmPushVarToDevice p v
  | PushExtraGlobalParamToDevice p e (Some n) => SlmPushExtraGlobalParam p e n
  | PushExtraGlobalParamToDevice p e None => SlmPushExtraGlobalParam p e 1
  | PullRecordingBuffersFromDevice => SlmPullRecordingBuffersFromDevice
  end.

(** What a device operation logs before it reaches the runtime. *)
Definition warnings_of (d : device_op) : list event :=
  match d with
  | PushExtraGlobalParamToDevice _ _ None => [size_default_warning]
  | _ => []
  end.

(** The only device operation with a second precondition. *)
Definition needs_recording (d : device_op) : bool :=
  match d with
  | PullRecordingBuffersFromDevice => true
  | _ => false
  end.

(** The log of a [load] during which nothing raises (lines 474-526). *)
Definition load_trace (m : GeNNModel) (path_to_model : string)
  (num_recording_timesteps : option Z) : list event :=
  [SlmOpen path_to_model (model_name m); SlmAllocateMem]
  ++ (if recording_in_use m then
        match num_recording_timesteps with
        | Some n => [SlmAllocateRecordingBuffers n]
        | None => []
        end
      else [])
  ++ map (fun g => GroupLoadInitEgps Neuron (g_name g))
       (Dict.values (neuron_populations m))
  ++ map (fun g => GroupLoadInitEgps Synapse (g_name g))
       (Dict.values (synapse_populations m))
  ++ map (fun g => GroupLoadInitEgps Current (g_name g))
       (Dict.values (current_sources m))
  ++ map (fun g => GroupLoadInitEgps Custom (g_name g))
       (Dict.values (custom_updates m))
  ++ [SlmInitialize]
  ++ map (fun g => NeuronGroupLoad (g_name g) num_recording_timesteps)
       (Dict.values (neuron_populations m))
  ++ map (fun g => GroupLoad Synapse (g_name g))
       (Dict.values (synapse_populations m))
  ++ map (fun g => GroupLoad Current (g_name g))
       (Dict.values (current_sources m))
  ++ map (fun g => GroupLoad Custom (g_name g))
       (Dict.values (custom_updates m))
  ++ [SlmInitializeSparse].

(** The machine after a script of calls whose exceptions the caller
    catches. *)
Fixpoint run_script (env : Env) (backend_modules : Dict.t backend_module)
  (ops : list op) (s : machine) : machine :=
  match ops with
  | [] => s
  | o :: rest =>
      run_script env backend_modules rest
        (snd (run_op env backend_modules o s))
  end.

Definition is_load (o : op) : bool :=
  match o with
  | Load _ _ => true
  | _ => false
  end.

(** The number of [load] calls of a script that return. *)
Fixpoint load_successes (env : Env) (backend_modules : Dict.t backend_module)
  (ops : list op) (s : machine) : nat :=
  match ops with
  | [] => 0
  | o :: rest =>
      let (r, s') := run_op env backend_modules o s in
      (if is_load o && is_ok r then 1 else 0)
      + load_successes env backend_modules rest s'
  end.

(** What registration fixes: the four registries. *)
Definition registries (m : GeNNModel)
  : Dict.t Group * Dict.t Group * Dict.t Group * Dict.t Group :=
  (neuron_populations m, synapse_populations m, current_sources m,
   custom_updates m).

(** The simulation loop of the module's docstring (lines 32-34):
    [for i in range(n): gm.step_time()]. *)
Fixpoint step_times (env : Env) (n : nat) : M unit :=
  match n with
  | O => ret tt
  | S k => step_time env ;; step_times env k
  end.

(** ** Module-level functions (lines 664-1431)

    These functions do not touch an instance.  They reach the native layer
    through bare names of the module; what a call through a bound name
    does is unknown here and is the section's [external]. *)

(** The [custom_body] argument of the class factories. *)
Inductive custom_body_arg :=
| CustomBodyNone
| CustomBodyDict (d : Dict.t pyobj)
| CustomBodyOther (v : pyobj).

(** [not isinstance(custom_body, dict) and custom_body is not None] *)
Definition bad_custom_body (custom_body : custom_body_arg) : bool :=
  match custom_body with
  | CustomBodyOther _ => true
  | _ => false
  end.

(** [body[key] = lambda self: ...] guarded by [if arg is not None]. *)
Definition body_entry {A} (key : string) (arg : option A)
  (body : Dict.t pyobj) : Dict.t pyobj :=
  match arg with
  | Some _ => Dict.set key (PyOpaque "lambda") body
  | None => body
  end.

(** [body.update(custom_body)] guarded by [if custom_body is not None]. *)
Definition body_update (custom_body : custom_body_arg) (body : Dict.t pyobj)
  : Dict.t pyobj :=
  match custom_body with
  | CustomBodyDict d =>
      fold_left (fun b kv => Dict.set (fst kv) (snd kv) b) d body
  | _ => body
  end.

(** [isinstance(v, cls)] for the classes bound in this module: the two
    population classes a [pyobj] can be an instance of. *)
Definition isinstance (v cls : pyobj) : bool :=
  match cls, v with
  | PyOpaque c, PyNeuronGroup _ => String.eqb c "NeuronGroup"
  | PyOpaque c, PySynapseGroup _ => String.eqb c "SynapseGroup"
  | _, _ => false
  end.

Section ModuleFunctions.

Variable external : string -> list pyobj -> M pyobj.

(** [init_var] (lines 664-680) *)
Definition init_var (init_var_snippet param_space : pyobj) : M pyobj :=
  _ <- load_global "prepare_snippet" ;;
  _ <- load_global "genn_wrapper" ;;
  prepared <- external "prepare_snippet" [init_var_snippet; param_space] ;;
  _ <- load_global "genn" ;;
  external "genn.VarInit" [prepared].

(** [init_connectivity] (lines 683-701) *)
Definition init_connectivity (init_sparse_connect_snippet param_space : pyobj)
  : M pyobj :=
  _ <- load_global "prepare_snippet" ;;
  _ <- load_global "genn_wrapper" ;;
  prepared <- external "prepare_snippet"
                [init_sparse_connect_snippet; param_space] ;;
  _ <- load_global "genn" ;;
  external "genn.InitSparse" [prepared].

(** [init_toeplitz_connectivity] (lines 703-721) *)
Definition init_toeplitz_connectivity
  (init_toeplitz_connect_snippet param_space : pyobj) : M pyobj :=
  _ <- load_global "prepare_snippet" ;;
  _ <- load_global "genn_wrapper" ;;
  prepared <- external "prepare_snippet"
                [init_toeplitz_connect_snippet; param_space] ;;
  _ <- load_global "InitToeplitz" ;;
  external "InitToeplitz" [prepared].

(** [create_var_ref] (lines 723-732): the pair of the native reference and
    the population. *)
Definition create_var_ref (pop : pyobj) (var_name : string)
  : M (pyobj * pyobj) :=
  _ <- load_global "genn_wrapper" ;;
  ref <- external "genn_wrapper.create_var_ref" [pop; PyStr var_name] ;;
  ret (ref, pop).

(** [create_psm_var_ref] (lines 734-744) *)
Definition create_psm_var_ref (sg : pyobj) (var_name : string)
  : M (pyobj * pyobj) :=
  _ <- load_global "genn_wrapper" ;;
  ref <- external "genn_wrapper.create_psmvar_ref" [sg; PyStr var_name] ;;
  ret (ref, sg).

(** [create_wu_pre_var_ref] (lines 746-756) *)
Definition create_wu_pre_var_ref (sg : pyobj) (var_name : string)
  : M (pyobj * pyobj) :=
  _ <- load_global "genn_wrapper" ;;
  ref <- external "genn_wrapper.create_wupre_var_ref" [sg; PyStr var_name] ;;
  ret (ref, sg).

(** [create_wu_post_var_ref] (lines 758-768) *)
Definition create_wu_post_var_ref (sg : pyobj) (var_name : string)
  : M (pyobj * pyobj) :=
  _ <- load_global "genn_wrapper" ;;
  ref <- external "genn_wrapper.create_wupost_var_ref" [sg; PyStr var_name] ;;
  ret (ref, sg).

(** [create_wu_var_ref] (lines 770-794).  The condition of line 788 is
    evaluated first, and with it the bare name [CustomUpdate]. *)
Definition create_wu_var_ref (g : pyobj) (var_name : string)
  (tp_sg tp_var_name : pyobj) : M (pyobj * pyobj) :=
  cls <- load_global "CustomUpdate" ;;
  sg <- (if isinstance g cls then external "g._synapse_group" [g]
         else ret g) ;;
  match tp_sg with
  | PyNone =>
      _ <- load_global "genn_wrapper" ;;
      ref <- external "genn_wrapper.create_wuvar_ref" [g; PyStr var_name] ;;
      ret (ref, sg)
  | _ =>
      _ <- load_global "genn_wrapper" ;;
      ref <- external "genn_wrapper.create_wuvar_ref"
               [g; PyStr var_name; tp_sg; tp_var_name] ;;
      ret (ref, sg)
  end.

(** The tail call of every class factory:
    [create_custom_model_class(class_name, genn_wrapper.<Module>.Custom, ...)].
    The callee is a bound name; its second argument starts with the bare
    name [genn_wrapper]. *)
Definition call_create_custom_model_class (class_name : string)
  (body : Dict.t pyobj) : M pyobj :=
  _ <- load_global "create_custom_model_class" ;;
  _ <- load_global "genn_wrapper" ;;
  external "create_custom_model_class"
    [PyStr class_name; PyOpaque "body"].

(** [create_custom_neuron_class] (lines 797-876) *)
Definition create_custom_neuron_class (class_name : string)
  (param_names var_name_types derived_params : option (list pyobj))
  (sim_code threshold_condition_code reset_code support_code : option string)
  (extra_global_params additional_input_vars : option (list pyobj))
  (is_auto_refractory_required : option bool)
  (custom_body : custom_body_arg) : M pyobj :=
  if bad_custom_body custom_body then
    raise (ValueError "custom_body must be an isinstance of dict or None")
  else
    let body := Dict.empty in
    let body := body_entry "get_sim_code" sim_code body in
    let body := body_entry "get_threshold_condition_code"
                  threshold_condition_code body in
    let body := body_entry "get_reset_code" reset_code body in
    let body := body_entry "get_support_code" support_code body in
    let body := body_entry "get_extra_global_params" extra_global_params
                  body in
    let body := match additional_input_vars with
                | Some (_ :: _) =>
                    Dict.set "get_additional_input_vars" (PyOpaque "lambda")
                      body
                | _ => body
                end in
    let body := body_entry "is_auto_refractory_required"
                  is_auto_refractory_required body in
    let body := body_update custom_body body in
    call_create_custom_model_class class_name body.

(** [create_custom_postsynaptic_class] (lines 879-926) *)
Definition create_custom_postsynaptic_class (class_name : string)
  (param_names var_name_types derived_params : option (list pyobj))
  (decay_code apply_input_code support_code : option string)
  (custom_body : custom_body_arg) : M pyobj :=
  if bad_custom_body custom_body then raise (ValueError "")
  else
    let body := Dict.empty in
    let body := body_entry "get_decay_code" decay_code body in
    let body := body_entry "get_apply_input_code" apply_input_code body in
    let body := body_entry "get_support_code" support_code body in
    let body := body_update custom_body body in
    call_create_custom_model_class class_name body.

(** [create_custom_current_source_class] (lines 1106-1148).  The function
    has no parameter [custom_body]: line 1133 reads it as a bare name. *)
Definition create_custom_current_source_class (class_name : string)
  (param_names var_name_types derived_params : option (list pyobj))
  (injection_code : option string)
  (extra_global_params : option (list pyobj)) : M pyobj :=
  custom_body <- load_global "custom_body" ;;
  if negb (match custom_body with PyDict _ => true | _ => false end)
     && negb (match custom_body with PyNone => true | _ => false end)
  then raise (ValueError "custom_body must be an instance of dict or None")
  else
    let body := Dict.empty in
    let body := body_entry "get_injection_code" injection_code body in
    let body := body_entry "get_extra_global_params" extra_global_params
                  body in
    call_create_custom_model_class class_name body.

(** [create_custom_custom_update_class] (lines 1151-1201), with the same
    bare name at line 1181. *)
Definition create_custom_custom_update_class (class_name : string)
  (param_names var_name_types derived_params var_refs : option (list pyobj))
  (update_code : option string)
  (extra_global_params : option (list pyobj)) : M pyobj :=
  custom_body <- load_global "custom_body" ;;
  if negb (match custom_body with PyDict _ => true | _ => false end)
     && negb (match custom_body with PyNone => true | _ => false end)
  then raise (ValueError "custom_body must be an instance of dict or None")
  else
    let body := Dict.empty in
    let body := body_entry "get_update_code" update_code body in
    let body := body_entry "get_extra_global_params" extra_global_params
                  body in
    let body := body_entry "get_var_refs" var_refs body in
    call_create_custom_model_class class_name body.

(** [create_dpf_class] (lines 1252-1267) *)
Definition create_dpf_class (dp_func : pyobj) : M pyobj :=
  _ <- load_global "genn_wrapper" ;;
  external "type" [PyStr ""; PyOpaque "DerivedParamFunc"; dp_func].

(** [create_cmlf_class] (lines 1270-1287) *)
Definition create_cmlf_class (cml_func : pyobj) : M pyobj :=
  _ <- load_global "genn_wrapper" ;;
  external "type" [PyStr ""; PyOpaque "CalcMaxLengthFunc"; cml_func].

(** [create_cksf_class] (lines 1289-1305) *)
Definition create_cksf_class (cks_func : pyobj) : M pyobj :=
  _ <- load_global "genn_wrapper" ;;
  external "type" [PyStr ""; PyOpaque "CalcKernelSizeFunc"; cks_func].

(** [create_custom_init_var_snippet_class] (lines 1307-1343) *)
Definition create_custom_init_var_snippet_class (class_name : string)
  (param_names derived_params : option (list pyobj))
  (var_init_code : option string)
  (extra_global_params : option (list pyobj)) : M pyobj :=
  let body := Dict.empty in
  let body := body_entry "get_code" var_init_code body in
  let body := body_entry "get_extra_global_params" extra_global_params body in
  call_create_custom_model_class class_name body.

(** [create_custom_weight_update_class] (lines 929-1103) *)
Definition create_custom_weight_update_class (class_name : string)
  (param_names var_name_types pre_var_name_types post_var_name_types
     derived_params : option (list pyobj))
  (sim_code event_code learn_post_code synapse_dynamics_code
     event_threshold_condition_code pre_spike_code post_spike_code
     pre_dynamics_code post_dynamics_code sim_support_code
     learn_post_support_code synapse_dynamics_suppport_code : option string)
  (extra_global_params : option (list pyobj))
  (is_pre_spike_time_required is_post_spike_time_required
     is_pre_spike_event_time_required is_prev_pre_spike_time_required
     is_prev_post_spike_time_required
     is_prev_pre_spike_event_time_required : option bool)
  (custom_body : custom_body_arg) : M pyobj :=
  if bad_custom_body custom_body then
    raise (ValueError "custom_body must be an instance of dict or None")
  else
    let body := Dict.empty in
    let body := body_entry "get_sim_code" sim_code body in
    let body := body_entry "get_event_code" event_code body in
    let body := body_entry "get_learn_post_code" learn_post_code body in
    let body := body_entry "get_synapse_dynamics_code" synapse_dynamics_code
                  body in
    let body := body_entry "get_event_threshold_condition_code"
                  event_threshold_condition_code body in
    let body := body_entry "get_pre_spike_code" pre_spike_code body in
    let body := body_entry "get_post_spike_code" post_spike_code body in
    let body := body_entry "get_pre_dynamics_code" pre_dynamics_code body in
    let body := body_entry "get_post_dynamics_code" post_dynamics_code body in
    let body := body_entry "get_sim_support_code" sim_support_code body in
    let body := body_entry "get_learn_post_support_code"
                  learn_post_support_code body in
    let body := body_entry "get_synapse_dynamics_suppport_code"
                  synapse_dynamics_suppport_code body in
    let body := body_entry "get_extra_global_params" extra_global_params
                  body in
    let body := body_entry "get_pre_vars" pre_var_name_types body in
    let body := body_entry "get_post_vars" post_var_name_types body in
    let body := body_entry "is_pre_spike_time_required"
                  is_pre_spike_time_required body in
    let body := body_entry "is_post_spike_time_required"
                  is_post_spike_time_required body in
    let body := body_entry "is_pre_spike_event_time_required"
                  is_pre_spike_event_time_required body in
    let body := body_entry "is_prev_pre_spike_time_required"
                  is_prev_pre_spike_time_required body in
    let body := body_entry "is_prev_post_spike_time_required"
                  is_prev_post_spike_time_required body in
    let body := body_entry "is_prev_pre_spike_event_time_required"
                  is_prev_pre_spike_event_time_required body in
    let body := body_update custom_body body in
    call_create_custom_model_class class_name body.

(** [create_custom_sparse_connect_init_snippet_class] (lines 1346-1431) *)
Definition create_custom_sparse_connect_init_snippet_class
  (class_name : string) (param_names derived_params : option (list pyobj))
  (row_build_code : option string)
  (row_build_state_vars : option (list pyobj))
  (col_build_code : option string)
  (col_build_state_vars : option (list pyobj))
  (calc_max_row_len_func calc_max_col_len_func calc_kernel_size_func
     : option pyobj)
  (extra_global_params : option (list pyobj)) : M pyobj :=
  let body := Dict.empty in
  let body := body_entry "get_row_build_code" row_build_code body in
  let body := body_entry "get_row_build_state_vars" row_build_state_vars
                body in
  let body := body_entry "get_col_build_code" col_build_code body in
  let body := body_entry "get_col_build_state_vars" col_build_state_vars
                body in
  let body := body_entry "get_calc_max_row_length_func" calc_max_row_len_func
                body in
  let body := body_entry "get_calc_max_col_length_func" calc_max_col_len_func
                body in
  let body := body_entry "get_calc_kernel_size_func" calc_kernel_size_func
                body in
  let body := body_entry "get_extra_global_params" extra_global_params body in
  call_create_custom_model_class class_name body.

End ModuleFunctions.

(** An import that raised something other than ImportError. *)
Definition raises_other (import_module : string -> import_result)
  (b : string) : bool :=
  match import_module b with
  | RaisesOther => true
  | _ => false
  end.

(** The backends that import, with their modules, in the given order. *)
Definition imported_backends (import_module : string -> import_result)
  (bs : list string) : Dict.t backend_module :=
  flat_map (fun b => match import_module b with
                     | Imported m => [(b, m)]
                     | _ => []
                     end) bs.

(** The instance [__init__] leaves behind when it returns. *)
Definition constructed (precision model_name backend_name : string)
  (bm : backend_module) (time_precision : option string) (level : Z)
  (kwargs : Dict.t pyobj) : GeNNModel :=
  {| recording_in_use := false; name := model_name;
     _time_precision := checked_precision precision time_precision;
     _slm := if String.eqb (checked_precision precision time_precision)
                  "float"
             then SharedLibraryModelFloat else SharedLibraryModelDouble;
     _built := false; _loaded := false;
     _backend_name := Some backend_name; _backend_module := Some bm;
     _preferences := kwargs; backend_log_level := level;
     _path_to_model := None;
     neuron_populations := []; synapse_populations := [];
     current_sources := []; custom_updates := [];
     genn_types := Dict.set "scalar"
                     (if String.eqb precision "float" then "float32"
                      else "float64")
                     initial_genn_types |}.

(** A registry as registration builds it: no name twice, and every object
    stored under its own name. *)
Definition registry_ok (d : Dict.t Group) : Prop :=
  NoDup (Dict.keys d) /\ forall k g, In (k, g) d -> g_name g = k.

Definition registries_ok (m : GeNNModel) : Prop :=
  registry_ok (neuron_populations m)
  /\ registry_ok (synapse_populations m)
  /\ registry_ok (current_sources m)
  /\ registry_ok (custom_updates m).

(** [l1] is an initial segment of [l2]. *)
Definition is_prefix (l1 l2 : list event) : Prop :=
  exists rest, l2 = l1 ++ rest.

(** ** Rules of the weakest precondition *)

Lemma wp_ret A (a : A) Q s : Q (Ok a) s -> wp (ret a) Q s.
Proof. exact (fun H => H). Qed.

Lemma wp_raise A (e : exn) (Q : result A -> machine -> Prop) s :
  Q (Raise e) s -> wp (raise e) Q s.
Proof. exact (fun H => H). Qed.

Lemma wp_bind A B (c : M A) (k : A -> M B) Q s :
  wp c (fun r s' => match r with
                    | Ok a => wp (k a) Q s'
                    | Raise e => Q (Raise e) s'
                    end) s ->
  wp (bind c k) Q s.
Proof.
  unfold wp, bind. destruct (c s) as [[a | e] s']; cbn; auto.
Qed.

Lemma wp_getattr A (f : GeNNModel -> A) Q s :
  Q (Ok (f (self s))) s -> wp (getattr f) Q s.
Proof. exact (fun H => H). Qed.

Lemma wp_setattr f Q s :
  Q (Ok tt) {| self := f (self s); log := log s |} -> wp (setattr f) Q s.
Proof. exact (fun H => H). Qed.

Lemma wp_getattr_opt A attr (f : GeNNModel -> option A) Q s :
  match f (self s) with
  | Some v => Q (Ok v) s
  | None => Q (Raise (AttributeError attr)) s
  end ->
  wp (getattr_opt attr f) Q s.
Proof.
  unfold wp, getattr_opt. destruct (f (self s)); cbn; auto.
Qed.

Lemma wp_emit ev Q s : Q (Ok tt) (logged ev s) -> wp (emit ev) Q s.
Proof. exact (fun H => H). Qed.

Lemma wp_call env ev Q s :
  (raises env (log s) ev = true -> Q (Raise (ExternalError ev)) (logged ev s)) ->
  (raises env (log s) ev = false -> Q (Ok tt) (logged ev s)) ->
  wp (call env ev) Q s.
Proof.
  unfold wp, call. intros Hraise Hok.
  destruct (raises env (log s) ev); cbn; auto.
Qed.

Lemma wp_subscript V (d : Dict.t V) k Q s :
  match Dict.get k d with
  | Some v => Q (Ok v) s
  | None => Q (Raise (KeyError k)) s
  end ->
  wp (subscript d k) Q s.
Proof.
  unfold wp, subscript. destruct (Dict.get k d); cbn; auto.
Qed.

Lemma wp_void A (c : M A) Q s :
  wp c (fun r s' => match r with
                    | Ok _ => Q (Ok tt) s'
                    | Raise e => Q (Raise e) s'
                    end) s ->
  wp (void c) Q s.
Proof.
  unfold wp, void. destruct (c s) as [[a | e] s']; cbn; auto.
Qed.

Lemma wp_lift A (r : exn + A) Q s :
  match r with
  | inr a => Q (Ok a) s
  | inl e => Q (Raise e) s
  end ->
  wp (lift r) Q s.
Proof. destruct r; exact (fun H => H). Qed.

Lemma wp_mono A (c : M A) (Q Q' : result A -> machine -> Prop) s :
  (forall r s', Q r s' -> Q' r s') -> wp c Q s -> wp c Q' s.
Proof. unfold wp. auto. Qed.

(** A loop keeps what each of its iterations keeps, whether it runs to the
    end or stops at an exception, and raises only what an iteration
    raises. *)
Lemma wp_for_each A (xs : list A) (body : A -> M unit)
  (I : machine -> Prop) (E : exn -> Prop) Q s :
  I s ->
  (forall x s1, I s1 ->
     wp (body x) (fun r s2 => match r with
                              | Ok _ => I s2
                              | Raise e => I s2 /\ E e
                              end) s1) ->
  (forall s', I s' -> Q (Ok tt) s') ->
  (forall e s', I s' -> E e -> Q (Raise e) s') ->
  wp (for_each xs body) Q s.
Proof.
  intros Hs Hbody Hok Hraise. revert s Hs.
  induction xs as [| x rest IH]; intros s Hs; cbn [for_each].
  - apply wp_ret. auto.
  - apply wp_bind. eapply wp_mono; [| apply (Hbody x s Hs)].
    intros [[] | e] s'; cbv beta iota.
    + auto.
    + intros [Hs' He]. auto.
Qed.

(** One step through a method body. *)
Ltac wp_step :=
  lazymatch goal with
  | |- wp (bind _ _) _ _ => apply wp_bind
  | |- wp (ret _) _ _ => apply wp_ret
  | |- wp (raise _) _ _ => apply wp_raise
  | |- wp (getattr _) _ _ => apply wp_getattr
  | |- wp (setattr _) _ _ => apply wp_setattr; cbn [self log]
  | |- wp (getattr_opt _ _) _ _ => apply wp_getattr_opt
  | |- wp (emit _) _ _ => apply wp_emit
  | |- wp (warn _ _) _ _ => apply wp_emit
  | |- wp (call _ _) _ _ => apply wp_call; intros ?
  | |- wp (subscript _ _) _ _ => apply wp_subscript
  | |- wp (lift _) _ _ => apply wp_lift
  | |- wp (void _) _ _ => apply wp_void
  | |- wp (if ?b then _ else _) _ _ => destruct b eqn:?
  | |- wp (match ?x with _ => _ end) _ _ => destruct x eqn:?
  | |- match ?x with _ => _ end => destruct x eqn:?
  end; cbv beta iota.

Ltac wp_run := repeat wp_step.

(** Through a method body whose loops all keep [Inv] and raise only
    exceptions in [Exn]. *)
Ltac wp_loop Inv Exn :=
  lazymatch goal with
  | |- wp (for_each _ _) _ _ =>
      apply wp_for_each with (I := Inv) (E := Exn);
      [ | intros ? ? ? | intros ? ? | intros ? ? ? ? ]; cbv beta iota
  end.

Ltac wp_run_with Inv Exn := repeat first [ wp_step | wp_loop Inv Exn ].

(** ** Name resolution *)

Lemma genn_is_unbound : load_global "genn" = raise (NameError "genn").
Proof. reflexivity. Qed.

Lemma custom_updates_is_unbound :
  load_global "custom_updates" = raise (NameError "custom_updates").
Proof. reflexivity. Qed.

(** ** The built flag *)

Ltac flag_simpl :=
  cbn [self log logged _built _loaded recording_in_use
       set_name set_time_precision set_slm set_built set_loaded
       set_backend_name set_backend_module set_preferences
       set_backend_log_level set_path_to_model set_neuron_populations
       set_synapse_populations set_current_sources set_custom_updates
       set_genn_types] in *.

(** Every method refuses to start, or leaves the flag alone, once the
    model is built: nothing resets [_built]. *)
Lemma built_is_kept env mods o s :
  _built (self s) = true ->
  wp (run_op env mods o) (fun _ s' => _built (self s') = true) s.
Proof.
  intros Hb.
  destruct o as [b | p n neuron | p mt d src tgt wu ps | c model pop
                | c g model | p f | p n | d | ]; cbn [run_op].
  - unfold backend_name_setter. wp_run; flag_simpl; congruence.
  - unfold add_neuron_population. wp_run; flag_simpl; congruence.
  - unfold add_synapse_population. wp_run; flag_simpl; congruence.
  - unfold add_current_source. wp_run; flag_simpl; congruence.
  - unfold add_custom_update. wp_run; flag_simpl; congruence.
  - unfold build. wp_run; flag_simpl; congruence.
  - unfold load.
    wp_run_with (fun s' => _built (self s') = true) (fun _ : exn => True);
      flag_simpl; try split; trivial; congruence.
  - destruct d; cbn [run_device_op];
      [ unfold step_time | unfold custom_update
      | unfold pull_connectivity_from_device | unfold push_spikes_to_device
      | unfold push_spike_events_to_device
      | unfold push_current_spikes_to_device
      | unfold push_current_spike_events_to_device
      | unfold push_connectivity_to_device | unfold push_var_to_device
      | unfold push_extra_global_param_to_device
      | unfold pull_recording_buffers_from_device ];
      wp_run; flag_simpl; congruence.
  - unfold end_. rewrite custom_updates_is_unbound.
    wp_run; flag_simpl; congruence.
Qed.

Lemma build_refused_when_built env p f s :
  _built (self s) = true ->
  build env p f s = (Raise (PyException "GeNN model already built"), s).
Proof.
  intros Hb. unfold build, bind, getattr. rewrite Hb. reflexivity.
Qed.

(** A [build] that returns has set the flag (line 465). *)
Lemma build_return_sets_built env p f s :
  wp (build env p f)
     (fun r s' => is_ok r = true -> _built (self s') = true) s.
Proof.
  unfold build. rewrite genn_is_unbound.
  wp_run; cbn [is_ok]; intros; flag_simpl; congruence.
Qed.

(** What a [build] that passes the guard does: it calls [finalize] first,
    does not raise the guard's exception, and keeps the flag unset when it
    raises. *)
Lemma build_when_not_built env p f s :
  _built (self s) = false ->
  wp (build env p f)
     (fun r s' =>
        r <> Raise (PyException "GeNN model already built")
        /\ (exists rest, log s' = log s ++ Finalize :: rest)
        /\ (is_ok r = false -> _built (self s') = false)) s.
Proof.
  intros Hb. unfold build. rewrite genn_is_unbound.
  wp_run; try congruence; flag_simpl;
    (split; [ discriminate | split; [ | intros _; assumption ] ]);
    repeat rewrite <- app_assoc; cbn [app]; eexists; reflexivity.
Qed.

Lemma build_successes_bound env mods ops : forall s,
  build_successes env mods ops s <= if _built (self s) then 0 else 1.
Proof.
  induction ops as [| o rest IH]; intros s; cbn [build_successes].
  - destruct (_built (self s)); lia.
  - pose proof (built_is_kept env mods o s) as Hkeep.
    unfold wp in Hkeep.
    destruct (run_op env mods o s) as [r s'] eqn:Hrun.
    cbn [fst snd] in Hkeep. specialize (IH s').
    destruct (_built (self s)) eqn:Hb.
    + rewrite (Hkeep eq_refl) in IH.
      destruct o; cbn [is_build andb]; try lia.
      cbn [run_op] in Hrun. unfold void in Hrun.
      rewrite (build_refused_when_built env _ _ s Hb) in Hrun.
      inversion Hrun; subst. cbn [is_ok]. lia.
    + destruct (is_build o && is_ok r) eqn:Hcount.
      * apply andb_prop in Hcount. destruct Hcount as [Ho Hr].
        destruct o; try discriminate Ho.
        cbn [run_op] in Hrun. unfold void in Hrun.
        pose proof (build_return_sets_built env path_to_model
                      force_rebuild s) as Hset.
        unfold wp in Hset.
        destruct (build env path_to_model force_rebuild s) as [[v | e] s1];
          inversion Hrun; subst; try discriminate Hr.
        cbn [fst snd is_ok] in Hset. rewrite (Hset eq_refl) in IH. lia.
      * destruct (_built (self s')); lia.
Qed.

(** ** The log only grows *)

Lemma extends_logged l ev s : extends l s -> extends l (logged ev s).
Proof.
  intros [rest H]. exists (rest ++ [ev]). cbn [logged log].
  rewrite H. apply eq_sym, app_assoc.
Qed.

Lemma extends_setattr l f s :
  extends l s -> extends l {| self := f (self s); log := log s |}.
Proof. exact (fun H => H). Qed.

Lemma extends_start l ev s :
  log s = l -> extends (l ++ [ev]) (logged ev s).
Proof. intros <-. exists []. cbn [logged log]. apply eq_sym, app_nil_r. Qed.

Lemma extends_first l ev s :
  extends (l ++ [ev]) s -> exists rest, log s = l ++ ev :: rest.
Proof.
  intros [rest H]. exists rest. rewrite H, <- app_assoc. reflexivity.
Qed.

Create HintDb log.
#[local] Hint Resolve extends_logged extends_setattr : log.
#[local] Hint Extern 1 (extends (_ ++ [_]) (logged _ _)) =>
  apply extends_start; reflexivity : log.

Lemma recording_allocations_app l1 l2 :
  recording_allocations (l1 ++ l2)
  = recording_allocations l1 ++ recording_allocations l2.
Proof.
  induction l1 as [| e l1 IH]; cbn [app recording_allocations].
  - reflexivity.
  - destruct e; cbn [app]; rewrite IH; reflexivity.
Qed.

(** ** load *)

Lemma load_refused_when_loaded env p n s :
  _loaded (self s) = true ->
  load env p n s = (Raise (PyException "GeNN model already loaded"), s).
Proof.
  intros Hl. unfold load, bind, getattr. rewrite Hl. reflexivity.
Qed.

(** The first thing a [load] that passes its guard does is to open the
    shared library; the built flag plays no part. *)
Lemma load_opens_first env p n s :
  _loaded (self s) = false ->
  wp (load env p n)
     (fun r s' =>
        r <> Raise (PyException "GeNN model already loaded")
        /\ extends (log s ++ [SlmOpen p (model_name (self s))]) s') s.
Proof.
  intros Hl. unfold load.
  wp_run_with (extends (log s ++ [SlmOpen p (model_name (self s))]))
              (fun e => exists ev, e = ExternalError ev);
    unfold model_name in *;
    cbn [self log name _path_to_model set_path_to_model] in *;
    try congruence;
    repeat match goal with
           | H : Some _ = Some _ |- _ => injection H as <-
           | H : exists ev, _ = ExternalError ev |- _ => destruct H as [? ->]
           end;
    repeat split; try discriminate; eauto 20 with log.
Qed.

Ltac alloc_simpl :=
  unfold model_name in *;
  cbn [self log logged name recording_in_use _path_to_model _loaded _built
       set_path_to_model set_loaded set_built] in *;
  repeat rewrite recording_allocations_app;
  cbn [recording_allocations];
  repeat rewrite app_nil_r.

Ltac absurd_raise Hrel :=
  match goal with
  | H : raises _ _ _ = true |- _ =>
      rewrite Hrel in H by reflexivity; discriminate H
  end.

Lemma load_returns env p n s :
  never_raises env ->
  _loaded (self s) = false ->
  (recording_in_use (self s) = true -> n <> None) ->
  wp (load env p n)
     (fun r s' =>
        r = Ok tt /\ _loaded (self s') = true /\ _built (self s') = true) s.
Proof.
  intros Hnever Hl Hn. unfold load.
  wp_run_with (fun _ : machine => True) (fun _ : exn => False);
    alloc_simpl; try congruence; try contradiction;
    try (match goal with
         | H : raises _ _ _ = true |- _ => rewrite Hnever in H; discriminate H
         end);
    auto.
  exfalso. apply Hn; congruence.
Qed.

(** With the recording system in use and no count, [load] stops after
    [open] and [allocate_mem]. *)
Lemma load_without_count env p s :
  runtime_reliable env ->
  _loaded (self s) = false ->
  recording_in_use (self s) = true ->
  load env p None s
  = (Raise (PyException
              ("Cannot use recording system without passing "
               +++ "number of recording timesteps to GeNNModel.load")),
     {| self := set_path_to_model p (self s);
        log := log s ++ [SlmOpen p (model_name (self s)); SlmAllocateMem] |}).
Proof.
  intros Hrel Hl Hrec.
  unfold load, bind, getattr, setattr, getattr_opt, call.
  rewrite Hl. cbn [self log _path_to_model set_path_to_model].
  rewrite Hrel by reflexivity.
  cbn [self log]. rewrite Hrel by reflexivity.
  cbn [self log recording_in_use set_path_to_model]. rewrite Hrec.
  unfold raise, model_name. cbn [name set_path_to_model].
  rewrite <- app_assoc. reflexivity.
Qed.

(** With the recording system in use and a count, [load] asks for one
    recording buffer of that many timesteps. *)
Lemma load_with_count env p k s :
  runtime_reliable env ->
  _loaded (self s) = false ->
  recording_in_use (self s) = true ->
  wp (load env p (Some k))
     (fun _ s' =>
        recording_allocations (log s')
        = recording_allocations (log s) ++ [k]) s.
Proof.
  intros Hrel Hl Hrec. unfold load.
  wp_run_with (fun s' => recording_allocations (log s')
                         = recording_allocations (log s) ++ [k])
              (fun _ : exn => True);
    alloc_simpl; try congruence; try absurd_raise Hrel;
    try split; trivial.
Qed.

(** Without the recording system, [load] asks for no recording buffer. *)
Lemma load_without_recording env p n s :
  recording_in_use (self s) = false ->
  wp (load env p n)
     (fun _ s' =>
        recording_allocations (log s') = recording_allocations (log s)) s.
Proof.
  intros Hrec. unfold load.
  wp_run_with (fun s' => recording_allocations (log s')
                         = recording_allocations (log s))
              (fun _ : exn => True);
    alloc_simpl; try congruence; try split; trivial.
Qed.

(** ** Device operations *)

Lemma device_op_refused_when_not_loaded env d s :
  _loaded (self s) = false ->
  exists what w,
    fst (run_device_op env d s)
    = Raise (PyException ("GeNN model has to be loaded before " +++ what))
    /\ self (snd (run_device_op env d s)) = self s
    /\ log (snd (run_device_op env d s)) = log s ++ w
    /\ runtime_calls w = [].
Proof.
  intros Hl.
  destruct d as [| name | p | p | p | p | p | p | p v | p e [k |] |];
    cbn [run_device_op].
  1: exists "stepping", []; unfold step_time.
  2: exists "performing custom update", []; unfold custom_update.
  3: exists "pulling", []; unfold pull_connectivity_from_device.
  4: exists "pushing", []; unfold push_spikes_to_device.
  5: exists "pushing", []; unfold push_spike_events_to_device.
  6: exists "pushing", []; unfold push_current_spikes_to_device.
  7: exists "pushing", []; unfold push_current_spike_events_to_device.
  8: exists "pushing", []; unfold push_connectivity_to_device.
  9: exists "pushing", []; unfold push_var_to_device.
  10: exists "pushing", []; unfold push_extra_global_param_to_device.
  11: exists "pushing",
        [Warn "DeprecationWarning"
           ("The default of size=1 is very counter-intuitive and "
            +++ "will be removed in future")];
      unfold push_extra_global_param_to_device.
  12: exists "pulling recording buffers", [];
      unfold pull_recording_buffers_from_device.
  all: unfold bind, getattr, warn, emit, ret; cbn [self log negb];
    rewrite Hl; cbn [negb fst snd self log raise];
    rewrite ?app_nil_r; repeat split; reflexivity.
Qed.

Lemma pull_recording_refused_without_recording env s :
  _loaded (self s) = true ->
  recording_in_use (self s) = false ->
  pull_recording_buffers_from_device env s
  = (Raise (PyException
              "Cannot pull recording buffer if recording system is not in use"),
     s).
Proof.
  intros Hl Hrec.
  unfold pull_recording_buffers_from_device, bind, getattr.
  rewrite Hl. cbn [negb]. rewrite Hrec. reflexivity.
Qed.

(** ** Validation of referenced neuron groups *)

Lemma validate_missing_name ctx g s :
  Dict.get g (neuron_populations (self s)) = None ->
  _validate_neuron_group (PyStr g) ctx s
  = (Raise (ValueError ("'" +++ ctx +++ "' neuron group '" +++ g
                        +++ "' not found")), s).
Proof.
  intros Hg. unfold _validate_neuron_group, bind, getattr, Dict.mem.
  rewrite Hg. reflexivity.
Qed.

Lemma validate_present_name ctx g h s :
  Dict.get g (neuron_populations (self s)) = Some h ->
  _validate_neuron_group (PyStr g) ctx s = (Ok h, s).
Proof.
  intros Hg. unfold _validate_neuron_group, bind, getattr, Dict.mem, subscript.
  rewrite Hg. reflexivity.
Qed.

Lemma validate_handle ctx h s :
  _validate_neuron_group (PyNeuronGroup h) ctx s = (Ok h, s).
Proof. reflexivity. Qed.

(** ** Backend resolution *)

(** The ordered dictionary the import loop builds: empty when nothing
    imports, otherwise headed by the first backend of the preference order
    that imports. *)
Lemma import_backends_head import_module mods :
  import_backends import_module backend_preference [] = inr mods ->
  match find (is_imported import_module) backend_preference with
  | Some b =>
      exists bm rest, import_module b = Imported bm /\ mods = (b, bm) :: rest
  | None => mods = []
  end.
Proof.
  unfold backend_preference, is_imported.
  cbn [import_backends find].
  destruct (import_module "cuda") eqn:Hcuda;
    destruct (import_module "single_threaded_cpu") eqn:Hcpu;
    destruct (import_module "opencl") eqn:Hcl;
    cbn; intros H; inversion H; subst; eauto.
Qed.

Lemma setter_refused_when_built mods b s :
  _built (self s) = true ->
  backend_name_setter mods b s
  = (Raise (PyException "GeNN model already built"), s).
Proof.
  intros Hb. unfold backend_name_setter, bind, getattr.
  rewrite Hb. reflexivity.
Qed.

Lemma precision_accepted tp :
  tp = "float" \/ tp = "double" ->
  (String.eqb tp "float" || String.eqb tp "double") = true.
Proof. intros [-> | ->]; reflexivity. Qed.

Ltac init_compute :=
  unfold __init__, backend_name_setter, bind, setattr, getattr, subscript,
    ret, raise;
  cbn [self log _time_precision set_time_precision String.eqb Ascii.eqb
       Bool.eqb _built set_built set_loaded set_slm Dict.keys Dict.get map
       fst snd].

(** [__init__] with an accepted time precision and no explicit backend. *)
Lemma init_default_backend mods precision model_name time_precision level
  kwargs s :
  let tp := checked_precision precision time_precision in
  tp = "float" \/ tp = "double" ->
  wp (__init__ mods precision model_name None time_precision level kwargs)
     (fun r s' =>
        match mods with
        | [] => r = Raise AssertionError
        | (b, bm) :: _ =>
            r = Ok tt /\ _backend_name (self s') = Some b
            /\ _backend_module (self s') = Some bm
        end) s.
Proof.
  intros tp Htp. subst tp. unfold wp.
  destruct time_precision as [t |]; cbn [checked_precision] in Htp;
    destruct Htp as [-> | ->];
    destruct mods as [| [b bm] rest];
    init_compute; try reflexivity;
    rewrite String.eqb_refl; cbn;
    try destruct (String.eqb precision "float");
    cbn; repeat split; reflexivity.
Qed.

(** [__init__] with an accepted time precision and an unknown backend. *)
Lemma init_unknown_backend mods precision model_name b time_precision level
  kwargs s :
  let tp := checked_precision precision time_precision in
  tp = "float" \/ tp = "double" ->
  Dict.get b mods = None ->
  fst (__init__ mods precision model_name (Some b) time_precision level
         kwargs s)
  = Raise (KeyError b).
Proof.
  intros tp Htp Hb. subst tp.
  destruct time_precision as [t |]; cbn [checked_precision] in Htp;
    destruct Htp as [-> | ->];
    init_compute; rewrite Hb; reflexivity.
Qed.

(** [__init__] with a time precision that is neither float nor double:
    formatting the message of line 125 fails first. *)
Lemma init_rejected_precision mods precision model_name backend
  time_precision level kwargs s :
  let tp := checked_precision precision time_precision in
  tp <> "float" -> tp <> "double" ->
  fst (__init__ mods precision model_name backend time_precision level
         kwargs s)
  = Raise IndexError.
Proof.
  intros tp Hf Hd.
  apply String.eqb_neq in Hf. apply String.eqb_neq in Hd.
  unfold __init__. fold (checked_precision precision time_precision).
  fold tp.
  unfold bind, setattr, getattr.
  cbn [self _time_precision set_time_precision].
  rewrite Hf, Hd. reflexivity.
Qed.

(** ** Registration *)

Lemma add_synapse_missing_source env pop_name mt d g target wu ps s :
  _built (self s) = false ->
  Dict.get g (neuron_populations (self s)) = None ->
  add_synapse_population env pop_name mt d (PyStr g) target wu ps s
  = (Raise (ValueError ("'source' neuron group '" +++ g +++ "' not found")),
     s).
Proof.
  intros Hb Hg. unfold add_synapse_population, bind, getattr.
  rewrite Hb. rewrite (validate_missing_name "source" g s Hg). reflexivity.
Qed.

Lemma add_synapse_missing_target env pop_name mt d source h g wu ps s :
  _built (self s) = false ->
  _validate_neuron_group source "source" s = (Ok h, s) ->
  Dict.get g (neuron_populations (self s)) = None ->
  add_synapse_population env pop_name mt d source (PyStr g) wu ps s
  = (Raise (ValueError ("'target' neuron group '" +++ g +++ "' not found")),
     s).
Proof.
  intros Hb Hsrc Hg. unfold add_synapse_population, bind, getattr.
  rewrite Hb, Hsrc. rewrite (validate_missing_name "target" g s Hg).
  reflexivity.
Qed.

Lemma add_current_source_missing_pop env cs_name model g s :
  _built (self s) = false ->
  Dict.get g (neuron_populations (self s)) = None ->
  add_current_source env cs_name model (PyStr g) s
  = (Raise (ValueError ("'pop' neuron group '" +++ g +++ "' not found")), s).
Proof.
  intros Hb Hg. unfold add_current_source, bind, getattr.
  rewrite Hb. rewrite (validate_missing_name "pop" g s Hg). reflexivity.
Qed.

(** ** Teardown *)

(** On a host whose runtime never raises, the loops of [end] free, for one
    registry, exactly the parameters flagged [needsAllocation]. *)
Lemma free_group_egps_frees env group : forall s,
  runtime_reliable env ->
  free_group_egps env group s
  = (Ok tt, {| self := self s; log := log s ++ frees_of group |}).
Proof.
  intros s Hrel. unfold free_group_egps. revert s.
  induction group as [| [g_name g_dat] rest IH]; intros s;
    cbn [for_each frees_of flat_map].
  - unfold ret. rewrite app_nil_r. destruct s; reflexivity.
  - unfold bind at 1.
    assert (Hinner : forall egps s1,
               for_each egps
                 (fun egp : string * EGP =>
                    if needsAllocation (snd egp)
                    then call env (SlmFreeExtraGlobalParam g_name (fst egp))
                    else ret tt) s1
               = (Ok tt,
                  {| self := self s1;
                     log := log s1
                            ++ map (fun egp : string * EGP =>
                                      SlmFreeExtraGlobalParam g_name (fst egp))
                                 (filter (fun egp : string * EGP =>
                                            needsAllocation (snd egp))
                                    egps) |})).
    { induction egps as [| [egp_name egp_dat] more IHe]; intros s1;
        cbn [for_each filter map fst snd].
      - unfold ret. rewrite app_nil_r. destruct s1; reflexivity.
      - unfold bind at 1. destruct (needsAllocation egp_dat);
          cbn [map fst snd].
        + unfold call. rewrite Hrel by reflexivity.
          rewrite IHe. cbn [self log]. rewrite <- app_assoc. reflexivity.
        + unfold ret at 1. apply IHe. }
    cbn [fst snd]. rewrite Hinner.
    change (for_each rest _) with
      (for_each rest (fun g : string * Group =>
         for_each (extra_global_params (snd g))
           (fun egp : string * EGP =>
              if needsAllocation (snd egp)
              then call env (SlmFreeExtraGlobalParam (fst g) (fst egp))
              else ret tt))).
    rewrite IH. cbn [self log]. rewrite <- app_assoc. reflexivity.
Qed.

Lemma end_raises env s :
  end_ env s = (Raise (NameError "custom_updates"), s).
Proof.
  unfold end_. rewrite custom_updates_is_unbound. reflexivity.
Qed.

(** [__init__] asks nothing of the outside world. *)
Lemma init_logs_nothing mods precision model_name backend time_precision
  level kwargs s :
  log (snd (__init__ mods precision model_name backend time_precision level
              kwargs s))
  = log s.
Proof.
  change (wp (__init__ mods precision model_name backend time_precision
                level kwargs) (fun _ s' => log s' = log s) s).
  unfold __init__, backend_name_setter.
  wp_run; reflexivity.
Qed.

Lemma construct_of_init mods precision model_name backend time_precision
  level kwargs :
  construct mods precision model_name backend time_precision level kwargs
  = match fst (__init__ mods precision model_name backend time_precision
                 level kwargs {| self := new_instance; log := [] |}) with
    | Ok _ =>
        Ok (self (snd (__init__ mods precision model_name backend
                         time_precision level kwargs
                         {| self := new_instance; log := [] |})))
    | Raise e => Raise e
    end.
Proof.
  unfold construct.
  destruct (__init__ mods precision model_name backend time_precision level
              kwargs {| self := new_instance; log := [] |}) as [[[] | e] s'];
    reflexivity.
Qed.

(** [__init__] never sets the built flag. *)
Lemma init_leaves_unbuilt mods precision model_name backend time_precision
  level kwargs s :
  wp (__init__ mods precision model_name backend time_precision level kwargs)
     (fun r s' => is_ok r = true -> _built (self s') = false) s.
Proof.
  unfold __init__, backend_name_setter.
  wp_run; cbn [is_ok]; intros; try discriminate; reflexivity.
Qed.

(** * The claims *)

(** ** C1 *)

(** C1, as stated, fails: a model that was never built is loaded.  On a
    host where nothing raises, [load()] on a fresh instance opens the shared
    library, allocates, initialises, and returns with both flags set. *)
Lemma load_of_a_never_built_model_opens_the_library :
  _built Sample.fresh = false
  /\ load Sample.cooperative "./" None (Sample.start Sample.fresh)
     = (Ok tt,
        {| self := Sample.loaded;
           log := [SlmOpen "./" "GeNNModel"; SlmAllocateMem; SlmInitialize;
                   SlmInitializeSparse] |}).
Proof. split; reflexivity. Qed.

(** C1, amended: the only guard of [load()] is the loaded flag.  On a
    loaded model it raises "GeNN model already loaded" before any runtime
    operation; on a model that is not loaded, built or not, it does not
    raise that exception, its first action is the runtime's
    [open(path, model_name)], and when no collaborator raises (and a count
    is given if recording is in use) it returns with the loaded and the
    built flag set. *)
Theorem load_is_guarded_by_the_loaded_flag_only env p n s :
  (_loaded (self s) = true ->
   load env p n s = (Raise (PyException "GeNN model already loaded"), s))
  /\ (_loaded (self s) = false ->
      fst (load env p n s) <> Raise (PyException "GeNN model already loaded")
      /\ exists rest,
           log (snd (load env p n s))
           = log s ++ SlmOpen p (model_name (self s)) :: rest)
  /\ (_loaded (self s) = false ->
      never_raises env ->
      (recording_in_use (self s) = true -> n <> None) ->
      fst (load env p n s) = Ok tt
      /\ _loaded (self (snd (load env p n s))) = true
      /\ _built (self (snd (load env p n s))) = true).
Proof.
  split; [| split].
  - apply load_refused_when_loaded.
  - intros Hl. destruct (load_opens_first env p n s Hl) as [Hr Hext].
    split; [ exact Hr | apply extends_first; exact Hext ].
  - intros Hl Hnever Hn. exact (load_returns env p n s Hnever Hl Hn).
Qed.

Lemma load_is_guarded_by_the_loaded_flag_only_witness :
  load Sample.cooperative "./" None (Sample.start Sample.loaded)
  = (Raise (PyException "GeNN model already loaded"),
     Sample.start Sample.loaded)
  /\ (exists rest,
        log (snd (load Sample.finalize_fails "./" None
                    (Sample.start Sample.fresh)))
        = [] ++ SlmOpen "./" "GeNNModel" :: rest)
  /\ _built (self (snd (load Sample.cooperative "./" None
                          (Sample.start Sample.fresh)))) = true.
Proof.
  split; [| split].
  - apply (proj1 (load_is_guarded_by_the_loaded_flag_only
                    Sample.cooperative "./" None
                    (Sample.start Sample.loaded))).
    reflexivity.
  - apply (proj1 (proj2 (load_is_guarded_by_the_loaded_flag_only
                           Sample.finalize_fails "./" None
                           (Sample.start Sample.fresh)))).
    reflexivity.
  - apply (proj2 (proj2 (load_is_guarded_by_the_loaded_flag_only
                           Sample.cooperative "./" None
                           (Sample.start Sample.fresh)))).
    + reflexivity.
    + intros h c. reflexivity.
    + intros H. discriminate H.
Defined.

(** ** C2 *)

(** C2, as stated, fails: after a [build()] that raised, a second
    [build()] is not refused.  On a host whose [finalize] raises, both
    calls on a fresh instance get as far as [finalize] and raise what it
    raised; the built flag stays unset. *)
Lemma second_build_after_a_failed_build_runs_again :
  build Sample.finalize_fails "./" false (Sample.start Sample.fresh)
  = (Raise (ExternalError Finalize),
     {| self := set_path_to_model "./" Sample.fresh; log := [Finalize] |})
  /\ build Sample.finalize_fails "./" false
       {| self := set_path_to_model "./" Sample.fresh; log := [Finalize] |}
     = (Raise (ExternalError Finalize),
        {| self := set_path_to_model "./" Sample.fresh;
           log := [Finalize; Finalize] |})
  /\ _built (set_path_to_model "./" Sample.fresh) = false.
Proof. repeat split; reflexivity. Qed.

(** C2, amended: [build()] is refused with "GeNN model already built"
    exactly when the built flag is set, and then before it does anything;
    with the flag unset it is not refused, starts with [finalize], and the
    flag is still unset if it raises.  In every script of calls on one
    instance at most one [build()] returns. *)
Theorem build_is_guarded_by_the_built_flag env mods :
  (forall p f s,
     _built (self s) = true ->
     build env p f s = (Raise (PyException "GeNN model already built"), s))
  /\ (forall p f s,
        _built (self s) = false ->
        fst (build env p f s) <> Raise (PyException "GeNN model already built")
        /\ (exists rest, log (snd (build env p f s)) = log s ++ Finalize :: rest)
        /\ (is_ok (fst (build env p f s)) = false ->
            _built (self (snd (build env p f s))) = false))
  /\ (forall ops s, build_successes env mods ops s <= 1).
Proof.
  split; [| split].
  - intros p f s. apply build_refused_when_built.
  - intros p f s Hb. exact (build_when_not_built env p f s Hb).
  - intros ops s. pose proof (build_successes_bound env mods ops s) as H.
    destruct (_built (self s)); lia.
Qed.

Lemma build_is_guarded_by_the_built_flag_witness :
  build Sample.cooperative "./" false (Sample.start Sample.loaded)
  = (Raise (PyException "GeNN model already built"),
     Sample.start Sample.loaded)
  /\ fst (build Sample.finalize_fails "./" false (Sample.start Sample.fresh))
     <> Raise (PyException "GeNN model already built").
Proof.
  split.
  - apply (proj1 (build_is_guarded_by_the_built_flag
                    Sample.cooperative Sample.backends)).
    reflexivity.
  - apply (proj1 (proj2 (build_is_guarded_by_the_built_flag
                           Sample.finalize_fails Sample.backends))).
    reflexivity.
Defined.


(** ** C3 *)

(** C3: on a model that is not loaded, every device-facing operation
    ([step_time], [custom_update], every [push_*] and [pull_*], and
    [pull_recording_buffers_from_device]) raises an exception whose message
    says the model has to be loaded first, leaves the instance untouched
    and makes no call into the runtime; and on a loaded model whose
    description does not use the recording system,
    [pull_recording_buffers_from_device] raises as well. *)
Theorem device_operations_require_a_loaded_model env s :
  (_loaded (self s) = false ->
   forall d, exists what w,
     fst (run_device_op env d s)
     = Raise (PyException ("GeNN model has to be loaded before " +++ what))
     /\ self (snd (run_device_op env d s)) = self s
     /\ log (snd (run_device_op env d s)) = log s ++ w
     /\ runtime_calls w = [])
  /\ (_loaded (self s) = true ->
      recording_in_use (self s) = false ->
      pull_recording_buffers_from_device env s
      = (Raise (PyException
                  "Cannot pull recording buffer if recording system is not in use"),
         s)).
Proof.
  split.
  - intros Hl d. apply device_op_refused_when_not_loaded. exact Hl.
  - apply pull_recording_refused_without_recording.
Qed.

Lemma device_operations_require_a_loaded_model_witness :
  (exists what w,
     fst (run_device_op Sample.cooperative StepTime
            (Sample.start Sample.fresh))
     = Raise (PyException ("GeNN model has to be loaded before " +++ what))
     /\ self (snd (run_device_op Sample.cooperative StepTime
                     (Sample.start Sample.fresh))) = Sample.fresh
     /\ log (snd (run_device_op Sample.cooperative StepTime
                    (Sample.start Sample.fresh))) = [] ++ w
     /\ runtime_calls w = [])
  /\ pull_recording_buffers_from_device Sample.cooperative
       (Sample.start Sample.loaded)
     = (Raise (PyException
                 "Cannot pull recording buffer if recording system is not in use"),
        Sample.start Sample.loaded).
Proof.
  split.
  - apply (proj1 (device_operations_require_a_loaded_model
                    Sample.cooperative (Sample.start Sample.fresh))).
    reflexivity.
  - apply (proj2 (device_operations_require_a_loaded_model
                    Sample.cooperative (Sample.start Sample.loaded)));
      reflexivity.
Defined.

(** ** C4 *)

(** C4, as stated, fails for handles: a neuron group object that is not
    in the registry passes validation.  On a fresh instance, whose neuron
    registry is empty, a synapse population between handles of a group of
    another model is handed to the native layer and registered. *)
Lemma synapse_population_accepts_a_foreign_handle :
  neuron_populations Sample.fresh = []
  /\ add_synapse_population Sample.cooperative "syn" "DENSE" 0
       (PyNeuronGroup Sample.foreign_group)
       (PyNeuronGroup Sample.foreign_group)
       Sample.plain_model Sample.plain_model (Sample.start Sample.fresh)
     = (Ok (new_group "syn" Sample.plain_model),
        {| self := set_synapse_populations
                     [("syn", new_group "syn" Sample.plain_model)]
                     Sample.fresh;
           log := [SuperAddSynapsePopulation "syn" "elsewhere" "elsewhere"] |}).
Proof. split; reflexivity. Qed.

(** C4, amended: a referenced population passed by name that is not a
    key of the neuron registry is rejected with a ValueError whose message
    gives the role and the name: ['<role>' neuron group '<name>' not found].
    On a model that is not built, [add_synapse_population] raises it for
    the source (role "source"), then for the target (role "target"), and
    [add_current_source] for its population (role "pop"), in each case
    before the native layer is called and without registering anything.
    A population passed as a NeuronGroup handle is returned as it is; the
    registry is not consulted. *)
Theorem missing_neuron_group_names_are_rejected env s :
  (forall context g,
     Dict.get g (neuron_populations (self s)) = None ->
     _validate_neuron_group (PyStr g) context s
     = (Raise (ValueError ("'" +++ context +++ "' neuron group '" +++ g
                           +++ "' not found")), s))
  /\ (forall pop_name mt d g target wu ps,
        _built (self s) = false ->
        Dict.get g (neuron_populations (self s)) = None ->
        add_synapse_population env pop_name mt d (PyStr g) target wu ps s
        = (Raise (ValueError ("'source' neuron group '" +++ g
                              +++ "' not found")), s))
  /\ (forall pop_name mt d source h g wu ps,
        _built (self s) = false ->
        _validate_neuron_group source "source" s = (Ok h, s) ->
        Dict.get g (neuron_populations (self s)) = None ->
        add_synapse_population env pop_name mt d source (PyStr g) wu ps s
        = (Raise (ValueError ("'target' neuron group '" +++ g
                              +++ "' not found")), s))
  /\ (forall cs_name model g,
        _built (self s) = false ->
        Dict.get g (neuron_populations (self s)) = None ->
        add_current_source env cs_name model (PyStr g) s
        = (Raise (ValueError ("'pop' neuron group '" +++ g
                              +++ "' not found")), s))
  /\ (forall context h,
        _validate_neuron_group (PyNeuronGroup h) context s = (Ok h, s)).
Proof.
  repeat split.
  - intros context g. apply validate_missing_name.
  - intros. apply add_synapse_missing_source; assumption.
  - intros. eapply add_synapse_missing_target; eassumption.
  - intros. apply add_current_source_missing_pop; assumption.
Qed.

Lemma missing_neuron_group_names_are_rejected_witness :
  _validate_neuron_group (PyStr "pre") "source" (Sample.start Sample.fresh)
  = (Raise (ValueError "'source' neuron group 'pre' not found"),
     Sample.start Sample.fresh)
  /\ add_synapse_population Sample.cooperative "syn" "DENSE" 0
    (PyStr "pre") (PyStr "post") Sample.plain_model Sample.plain_model
    (Sample.start Sample.fresh)
  = (Raise (ValueError "'source' neuron group 'pre' not found"),
     Sample.start Sample.fresh)
  /\ add_synapse_population Sample.cooperative "syn" "DENSE" 0
       (PyNeuronGroup Sample.foreign_group) (PyStr "post")
       Sample.plain_model Sample.plain_model (Sample.start Sample.fresh)
     = (Raise (ValueError "'target' neuron group 'post' not found"),
        Sample.start Sample.fresh)
  /\ add_current_source Sample.cooperative "cs" Sample.plain_model
       (PyStr "pre") (Sample.start Sample.fresh)
     = (Raise (ValueError "'pop' neuron group 'pre' not found"),
        Sample.start Sample.fresh).
Proof.
  pose proof (missing_neuron_group_names_are_rejected Sample.cooperative
                (Sample.start Sample.fresh)) as [Hname [Hsrc [Htgt [Hpop _]]]].
  split; [| split; [| split]].
  - apply Hname; reflexivity.
  - apply Hsrc; reflexivity.
  - apply (Htgt "syn" "DENSE" 0%Z (PyNeuronGroup Sample.foreign_group)
             Sample.foreign_group); reflexivity.
  - apply Hpop; reflexivity.
Defined.

(** ** C5 *)

(** C5: take a [load()] that passes its guard on a host whose runtime does
    not raise.  If the description uses the recording system, then without
    a count [load()] raises "Cannot use recording system ..." right after
    [open] and [allocate_mem], before any recording buffer is requested;
    with a count [k >= 1] it requests exactly one recording buffer, of [k]
    timesteps, and returns with the model loaded when no collaborator
    raises.  If the description does not use the recording system, no
    recording buffer is requested, whatever the argument, the state and the
    host. *)
Theorem recording_buffers_follow_the_timestep_count env p s :
  (_loaded (self s) = false ->
   runtime_reliable env ->
   recording_in_use (self s) = true ->
   load env p None s
   = (Raise (PyException
               "Cannot use recording system without passing number of recording timesteps to GeNNModel.load"),
      {| self := set_path_to_model p (self s);
         log := log s ++ [SlmOpen p (model_name (self s)); SlmAllocateMem] |})
   /\ (forall k, (1 <= k)%Z ->
         recording_allocations (log (snd (load env p (Some k) s)))
         = recording_allocations (log s) ++ [k])
   /\ (forall k, (1 <= k)%Z ->
         never_raises env ->
         fst (load env p (Some k) s) = Ok tt
         /\ _loaded (self (snd (load env p (Some k) s))) = true))
  /\ (recording_in_use (self s) = false ->
      forall n,
        recording_allocations (log (snd (load env p n s)))
        = recording_allocations (log s)).
Proof.
  split.
  - intros Hl Hrel Hrec. split; [| split].
    + exact (load_without_count env p s Hrel Hl Hrec).
    + intros k _. exact (load_with_count env p k s Hrel Hl Hrec).
    + intros k _ Hnever.
      assert (Hn : recording_in_use (self s) = true -> Some k <> None)
        by (intros _; discriminate).
      destruct (load_returns env p (Some k) s Hnever Hl Hn) as [Hr [Hld _]].
      split; assumption.
  - intros Hrec n. exact (load_without_recording env p n s Hrec).
Qed.

Lemma recording_buffers_follow_the_timestep_count_witness :
  (load Sample.cooperative "./" None (Sample.start Sample.recording)
   = (Raise (PyException
               "Cannot use recording system without passing number of recording timesteps to GeNNModel.load"),
      {| self := set_path_to_model "./" Sample.recording;
         log := [] ++ [SlmOpen "./" "GeNNModel"; SlmAllocateMem] |})
   /\ recording_allocations
        (log (snd (load Sample.cooperative "./" (Some 100%Z)
                     (Sample.start Sample.recording))))
      = [] ++ [100%Z]
   /\ fst (load Sample.cooperative "./" (Some 100%Z)
             (Sample.start Sample.recording)) = Ok tt)
  /\ recording_allocations
       (log (snd (load Sample.cooperative "./" (Some 100%Z)
                    (Sample.start Sample.fresh))))
     = [].
Proof.
  pose proof (recording_buffers_follow_the_timestep_count
                Sample.cooperative "./" (Sample.start Sample.recording))
    as [Hrec _].
  pose proof (recording_buffers_follow_the_timestep_count
                Sample.cooperative "./" (Sample.start Sample.fresh))
    as [_ Hnone].
  assert (Hrel : runtime_reliable Sample.cooperative)
    by (intros h c _; reflexivity).
  destruct (Hrec eq_refl Hrel eq_refl) as [Hmissing [Hcount Hreturns]].
  split; [ split; [| split ] |].
  - exact Hmissing.
  - apply Hcount. lia.
  - apply Hreturns; [ lia | intros h c; reflexivity ].
  - apply Hnone. reflexivity.
Defined.

(** ** C6 *)

(** C6: let [mods] be the ordered dictionary the import loop builds.
    Without an explicit backend, construction (with an accepted time
    precision) selects the first backend of the order cuda,
    single_threaded_cpu, opencl that imports, with its module, and the
    model is not built; when none imports it raises AssertionError.  When
    none imports, construction raises whatever the arguments, and
    [__init__] never calls a collaborator, so nothing is compiled.  An
    explicit backend that is not in [mods] raises KeyError with its name.
    On a built model the setter raises "GeNN model already built" and
    changes nothing. *)
Theorem backend_resolution import_module mods :
  import_backends import_module backend_preference [] = inr mods ->
  (forall precision model_name time_precision level kwargs,
     let tp := checked_precision precision time_precision in
     tp = "float" \/ tp = "double" ->
     match find (is_imported import_module) backend_preference with
     | Some b =>
         exists m bm,
           construct mods precision model_name None time_precision level
             kwargs = Ok m
           /\ import_module b = Imported bm
           /\ _backend_name m = Some b
           /\ _backend_module m = Some bm
           /\ _built m = false
     | None =>
         construct mods precision model_name None time_precision level kwargs
         = Raise AssertionError
     end)
  /\ (find (is_imported import_module) backend_preference = None ->
      forall precision model_name time_precision level kwargs s,
        is_ok (construct mods precision model_name None time_precision level
                 kwargs) = false
        /\ log (snd (__init__ mods precision model_name None time_precision
                       level kwargs s)) = log s)
  /\ (forall b precision model_name time_precision level kwargs,
        let tp := checked_precision precision time_precision in
        tp = "float" \/ tp = "double" ->
        Dict.get b mods = None ->
        construct mods precision model_name (Some b) time_precision level
          kwargs = Raise (KeyError b))
  /\ (forall b s,
        _built (self s) = true ->
        backend_name_setter mods b s
        = (Raise (PyException "GeNN model already built"), s)).
Proof.
  intros Himp. apply import_backends_head in Himp.
  split; [| split; [| split]].
  - intros precision model_name time_precision level kwargs tp Htp.
    pose proof (init_default_backend mods precision model_name
                  time_precision level kwargs
                  {| self := new_instance; log := [] |} Htp) as Hinit.
    pose proof (init_leaves_unbuilt mods precision model_name None
                  time_precision level kwargs
                  {| self := new_instance; log := [] |}) as Hunbuilt.
    unfold wp in Hinit, Hunbuilt.
    rewrite construct_of_init.
    destruct (find (is_imported import_module) backend_preference) as [b |].
    + destruct Himp as [bm [rest [Hb ->]]].
      destruct Hinit as [Hr [Hname Hmod]].
      rewrite Hr in *. cbn [is_ok] in Hunbuilt.
      exists (self (snd (__init__ ((b, bm) :: rest) precision model_name None
                           time_precision level kwargs
                           {| self := new_instance; log := [] |}))), bm.
      repeat split; auto.
    + subst mods. rewrite Hinit. reflexivity.
  - intros Hnone precision model_name time_precision level kwargs s.
    rewrite Hnone in Himp. subst mods.
    split; [| apply init_logs_nothing].
    rewrite construct_of_init.
    set (tp := checked_precision precision time_precision).
    destruct (String.eqb tp "float") eqn:Hf;
      [ apply String.eqb_eq in Hf
      | destruct (String.eqb tp "double") eqn:Hd;
        [ apply String.eqb_eq in Hd | ] ].
    + pose proof (init_default_backend [] precision model_name
                    time_precision level kwargs
                    {| self := new_instance; log := [] |} (or_introl Hf)) as H.
      unfold wp in H. rewrite H. reflexivity.
    + pose proof (init_default_backend [] precision model_name
                    time_precision level kwargs
                    {| self := new_instance; log := [] |} (or_intror Hd)) as H.
      unfold wp in H. rewrite H. reflexivity.
    + apply String.eqb_neq in Hf. apply String.eqb_neq in Hd.
      rewrite (init_rejected_precision [] precision model_name None
                 time_precision level kwargs
                 {| self := new_instance; log := [] |} Hf Hd).
      reflexivity.
  - intros b precision model_name time_precision level kwargs tp Htp Hb.
    rewrite construct_of_init.
    rewrite (init_unknown_backend mods precision model_name b time_precision
               level kwargs {| self := new_instance; log := [] |} Htp Hb).
    reflexivity.
  - intros b s. apply setter_refused_when_built.
Qed.

Lemma backend_resolution_witness :
  (exists m bm,
     construct Sample.backends_cuda_cpu "float" "GeNNModel" None None 0 []
     = Ok m
     /\ Sample.import_cuda_cpu "cuda" = Imported bm
     /\ _backend_name m = Some "cuda"
     /\ _backend_module m = Some bm
     /\ _built m = false)
  /\ (exists m bm,
        construct Sample.backends "double" "GeNNModel" None None 0 [] = Ok m
        /\ Sample.import_cpu_only "single_threaded_cpu" = Imported bm
        /\ _backend_name m = Some "single_threaded_cpu"
        /\ _backend_module m = Some bm
        /\ _built m = false)
  /\ construct [] "float" "GeNNModel" None None 0 [] = Raise AssertionError
  /\ is_ok (construct [] "half" "GeNNModel" None None 0 []) = false
  /\ construct Sample.backends "float" "GeNNModel" (Some "cuda") None 0 []
     = Raise (KeyError "cuda")
  /\ backend_name_setter Sample.backends (Some "single_threaded_cpu")
       (Sample.start Sample.loaded)
     = (Raise (PyException "GeNN model already built"),
        Sample.start Sample.loaded).
Proof.
  pose proof (backend_resolution Sample.import_cuda_cpu
                Sample.backends_cuda_cpu eq_refl) as [Hboth _].
  pose proof (backend_resolution Sample.import_cpu_only
                Sample.backends eq_refl) as [Hcpu [_ [Hunknown Hbuilt]]].
  pose proof (backend_resolution Sample.import_none [] eq_refl)
    as [Hnone [Hfails _]].
  split; [| split; [| split; [| split; [| split]]]].
  - exact (Hboth "float" "GeNNModel" None 0%Z [] (or_introl eq_refl)).
  - exact (Hcpu "double" "GeNNModel" None 0%Z [] (or_intror eq_refl)).
  - exact (Hnone "float" "GeNNModel" None 0%Z [] (or_introl eq_refl)).
  - exact (proj1 (Hfails eq_refl "half" "GeNNModel" None 0%Z []
                    (Sample.start new_instance))).
  - exact (Hunknown "cuda" "float" "GeNNModel" None 0%Z []
             (or_introl eq_refl) eq_refl).
  - exact (Hbuilt (Some "single_threaded_cpu") (Sample.start Sample.loaded)
             eq_refl).
Defined.

(** ** C7 *)

(** C7: on a loaded model, [push_extra_global_param_to_device] without a
    size emits the deprecation warning and then forwards size 1 to the
    runtime; with an explicit size it forwards that size and emits no
    warning.  In both cases the call returns when the runtime's push
    returns. *)
Theorem push_egp_size_defaults_to_one env pop egp s :
  _loaded (self s) = true ->
  push_extra_global_param_to_device env pop egp None s
  = ((if raises env (log s ++ [size_default_warning])
           (SlmPushExtraGlobalParam pop egp 1)
      then Raise (ExternalError (SlmPushExtraGlobalParam pop egp 1))
      else Ok tt),
     {| self := self s;
        log := log s ++ [size_default_warning;
                         SlmPushExtraGlobalParam pop egp 1] |})
  /\ forall k,
       push_extra_global_param_to_device env pop egp (Some k) s
       = ((if raises env (log s) (SlmPushExtraGlobalParam pop egp k)
           then Raise (ExternalError (SlmPushExtraGlobalParam pop egp k))
           else Ok tt),
          {| self := self s;
             log := log s ++ [SlmPushExtraGlobalParam pop egp k] |}).
Proof.
  intros Hl. split; [| intros k];
    unfold push_extra_global_param_to_device, bind, warn, emit, ret, getattr,
      call;
    cbn [self log]; rewrite Hl; cbn [negb self log].
  - change (Warn "DeprecationWarning"
              ("The default of size=1 is very counter-intuitive and "
               +++ "will be removed in future")) with size_default_warning.
    rewrite <- app_assoc. cbn [app].
    destruct (raises env (log s ++ [size_default_warning])
                (SlmPushExtraGlobalParam pop egp 1)); reflexivity.
  - destruct (raises env (log s) (SlmPushExtraGlobalParam pop egp k));
      reflexivity.
Qed.

Lemma push_egp_size_defaults_to_one_witness :
  push_extra_global_param_to_device Sample.cooperative "pop" "rates" None
    (Sample.start Sample.loaded)
  = (Ok tt,
     {| self := Sample.loaded;
        log := [size_default_warning;
                SlmPushExtraGlobalParam "pop" "rates" 1] |})
  /\ push_extra_global_param_to_device Sample.cooperative "pop" "rates"
       (Some 64%Z) (Sample.start Sample.loaded)
     = (Ok tt,
        {| self := Sample.loaded;
           log := [SlmPushExtraGlobalParam "pop" "rates" 64] |}).
Proof.
  destruct (push_egp_size_defaults_to_one Sample.cooperative "pop" "rates"
              (Sample.start Sample.loaded) eq_refl) as [Hdefault Hsize].
  split.
  - exact Hdefault.
  - exact (Hsize 64%Z).
Defined.

(** ** C8 *)

(** C8 on the code: [__init__] checks the time precision only.  With
    [precision="half"] and [time_precision="float"] construction returns a
    model (its scalar type falls to float64); the check of [precision] sits
    in the string literal of lines 129-143.  With [precision="half"] alone
    construction does fail, with the IndexError of the message template
    [{1}] of line 126. *)
Theorem unsupported_precision_is_not_rejected :
  construct Sample.backends "half" "GeNNModel" None (Some "float") 0 []
  = Ok Sample.half_precision
  /\ _time_precision Sample.half_precision = "float"
  /\ Dict.get "scalar" (genn_types Sample.half_precision) = Some "float64"
  /\ construct Sample.backends "half" "GeNNModel" None None 0 []
     = Raise IndexError.
Proof. repeat split; vm_compute; reflexivity. Qed.

(** ** C9 *)

(** C9 on the code: [end()] raises NameError for [custom_updates] while
    it builds the list of registries, on every instance and host, before
    its loops start: nothing is freed. *)
Theorem end_raises_before_freeing env s :
  end_ env s = (Raise (NameError "custom_updates"), s).
Proof. apply end_raises. Qed.

(** The instance with a population whose parameter "rates" the runtime
    allocated: the loops would free it, [end()] does not get there. *)
Example end_on_a_population_with_a_runtime_allocated_parameter :
  frees_of (neuron_populations Sample.with_egps)
  = [SlmFreeExtraGlobalParam "pop" "rates"]
  /\ add_neuron_population Sample.cooperative "pop" 10
       Sample.neuron_with_egps (Sample.start Sample.fresh)
     = (Ok (new_group "pop" Sample.neuron_with_egps),
        {| self := Sample.with_egps;
           log := [GetModel "Poisson"; SuperAddNeuronPopulation "pop" 10;
                   InitGroup "pop"] |})
  /\ end_ Sample.cooperative (Sample.start Sample.with_egps)
     = (Raise (NameError "custom_updates"), Sample.start Sample.with_egps).
Proof. repeat split; reflexivity. Qed.

(** ** C10 *)

(** C10: on a model that is not loaded,
    [push_extra_global_param_to_device] without a size first emits the
    deprecation warning and then raises "GeNN model has to be loaded before
    pushing"; the warning is the only trace of the call. *)
Theorem push_egp_warns_before_the_loaded_check env pop egp s :
  _loaded (self s) = false ->
  push_extra_global_param_to_device env pop egp None s
  = (Raise (PyException "GeNN model has to be loaded before pushing"),
     {| self := self s; log := log s ++ [size_default_warning] |}).
Proof.
  intros Hl.
  unfold push_extra_global_param_to_device, bind, warn, emit, ret, getattr.
  cbn [self log]. rewrite Hl. reflexivity.
Qed.

Lemma push_egp_warns_before_the_loaded_check_witness :
  push_extra_global_param_to_device Sample.cooperative "pop" "rates" None
    (Sample.start Sample.fresh)
  = (Raise (PyException "GeNN model has to be loaded before pushing"),
     {| self := Sample.fresh; log := [size_default_warning] |}).
Proof.
  exact (push_egp_warns_before_the_loaded_check Sample.cooperative "pop"
           "rates" (Sample.start Sample.fresh) eq_refl).
Defined.

(** * Further properties of the code *)

(** ** Dictionaries *)

Lemma dict_get_set_same V k (v : V) d : Dict.get k (Dict.set k v d) = Some v.
Proof.
  induction d as [| [k' v'] r IH]; cbn [Dict.set Dict.get].
  - rewrite String.eqb_refl. reflexivity.
  - destruct (String.eqb k k') eqn:E; cbn [Dict.get]; rewrite ?E.
    + rewrite String.eqb_refl. reflexivity.
    + exact IH.
Qed.

Lemma dict_get_set_other V k k' (v : V) d :
  k' <> k -> Dict.get k' (Dict.set k v d) = Dict.get k' d.
Proof.
  intros Hne. apply String.eqb_neq in Hne.
  induction d as [| [k0 v0] r IH]; cbn [Dict.set Dict.get].
  - rewrite Hne. reflexivity.
  - destruct (String.eqb k k0) eqn:E; cbn [Dict.get].
    + apply String.eqb_eq in E. subst k0. rewrite Hne. reflexivity.
    + rewrite IH. reflexivity.
Qed.

Lemma dict_keys_set_present V k (v : V) d :
  Dict.mem k d = true -> Dict.keys (Dict.set k v d) = Dict.keys d.
Proof.
  unfold Dict.mem, Dict.keys.
  induction d as [| [k' v'] r IH]; cbn [Dict.set Dict.get map fst].
  - discriminate.
  - destruct (String.eqb k k') eqn:E; cbn [map fst]; intros H.
    + apply String.eqb_eq in E. subst. reflexivity.
    + rewrite IH by exact H. reflexivity.
Qed.

Lemma dict_keys_set_absent V k (v : V) d :
  Dict.mem k d = false -> Dict.keys (Dict.set k v d) = Dict.keys d ++ [k].
Proof.
  unfold Dict.mem, Dict.keys.
  induction d as [| [k' v'] r IH]; cbn [Dict.set Dict.get map fst app].
  - reflexivity.
  - destruct (String.eqb k k') eqn:E; cbn [map fst app]; intros H.
    + discriminate.
    + rewrite IH by exact H. reflexivity.
Qed.

Lemma dict_mem_set V k k' (v : V) d :
  Dict.mem k' (Dict.set k v d) = String.eqb k' k || Dict.mem k' d.
Proof.
  unfold Dict.mem. destruct (String.eqb k' k) eqn:E.
  - apply String.eqb_eq in E. subst. rewrite dict_get_set_same. reflexivity.
  - apply String.eqb_neq in E. rewrite dict_get_set_other by exact E.
    reflexivity.
Qed.


(** ** The preferences of [build] *)



(** ** Registration, step by step *)

Ltac reg_simpl :=
  cbn [self log logged registries
       neuron_populations synapse_populations current_sources custom_updates
       _built _loaded _backend_name _backend_module
       set_neuron_populations set_synapse_populations set_current_sources
       set_custom_updates set_path_to_model set_built set_loaded
       set_backend_name set_backend_module] in *.

(** Validation returns or raises; it never changes the machine. *)
Lemma validate_neuron_group_pure group context s :
  snd (_validate_neuron_group group context s) = s.
Proof.
  destruct group; try reflexivity.
  unfold _validate_neuron_group, bind, getattr, subscript, Dict.mem.
  destruct (Dict.get s0 (neuron_populations (self s))); reflexivity.
Qed.

Lemma wp_validate_neuron_group group context Q s :
  (forall r, Q r s) -> wp (_validate_neuron_group group context) Q s.
Proof.
  intros H. unfold wp. rewrite validate_neuron_group_pure. apply H.
Qed.

Lemma add_neuron_population_outcome env p n neuron s :
  wp (add_neuron_population env p n neuron)
     (fun r s' =>
        match r with
        | Raise _ => self s' = self s
        | Ok g =>
            g = new_group p neuron
            /\ self s' = set_neuron_populations
                           (Dict.set p g (neuron_populations (self s)))
                           (self s)
            /\ log s' = log s ++ [GetModel (md_name neuron);
                                  SuperAddNeuronPopulation p n; InitGroup p]
        end) s.
Proof.
  unfold add_neuron_population.
  wp_run; reg_simpl; try reflexivity.
  repeat split. repeat rewrite <- app_assoc. reflexivity.
Qed.

Lemma add_synapse_population_outcome env p mt d source target wu ps s :
  wp (add_synapse_population env p mt d source target wu ps)
     (fun r s' =>
        match r with
        | Raise _ => self s' = self s
        | Ok g =>
            g = new_group p wu
            /\ self s' = set_synapse_populations
                           (Dict.set p g (synapse_populations (self s)))
                           (self s)
            /\ exists src tgt,
                 _validate_neuron_group source "source" s = (Ok src, s)
                 /\ _validate_neuron_group target "target" s = (Ok tgt, s)
                 /\ log s' = log s ++ [SuperAddSynapsePopulation p
                                         (g_name src) (g_name tgt)]
        end) s.
Proof.
  unfold add_synapse_population.
  wp_step. wp_step. wp_step; [ reflexivity |].
  wp_step. unfold wp at 1.
  pose proof (validate_neuron_group_pure source "source" s) as Hs.
  destruct (_validate_neuron_group source "source" s) as [[src | e] s1] eqn:E1;
    cbn [fst snd] in *; subst s1; [| reflexivity ].
  wp_step. unfold wp at 1.
  pose proof (validate_neuron_group_pure target "target" s) as Ht.
  destruct (_validate_neuron_group target "target" s) as [[tgt | e] s1] eqn:E2;
    cbn [fst snd] in *; subst s1; [| reflexivity ].
  wp_run; reg_simpl; try reflexivity.
  repeat split. exists src, tgt. repeat split.
Qed.

Lemma add_current_source_outcome env c model pop s :
  wp (add_current_source env c model pop)
     (fun r s' =>
        match r with
        | Raise _ => self s' = self s
        | Ok g =>
            g = new_group c model
            /\ self s' = set_current_sources
                           (Dict.set c g (current_sources (self s))) (self s)
            /\ exists target,
                 _validate_neuron_group pop "pop" s = (Ok target, s)
                 /\ log s' = log s ++ [SuperAddCurrentSource c (g_name target)]
        end) s.
Proof.
  unfold add_current_source.
  wp_step. wp_step. wp_step; [ reflexivity |].
  wp_step. unfold wp at 1.
  pose proof (validate_neuron_group_pure pop "pop" s) as Hs.
  destruct (_validate_neuron_group pop "pop" s) as [[tgt | e] s1] eqn:E1;
    cbn [fst snd] in *; subst s1; [| reflexivity ].
  wp_run; reg_simpl; try reflexivity.
  repeat split. exists tgt. repeat split.
Qed.

Lemma add_custom_update_outcome env c g model s :
  wp (add_custom_update env c g model)
     (fun r s' =>
        match r with
        | Raise _ => self s' = self s
        | Ok u =>
            u = new_group c model
            /\ self s' = set_custom_updates
                           (Dict.set c u (custom_updates (self s))) (self s)
            /\ log s' = log s ++ [SuperAddCustomUpdate c g]
        end) s.
Proof.
  unfold add_custom_update.
  wp_run; reg_simpl; try reflexivity.
  repeat split.
Qed.

Lemma add_neuron_population_returns env p n neuron s :
  never_raises env ->
  _built (self s) = false ->
  add_neuron_population env p n neuron s
  = (Ok (new_group p neuron),
     {| self := set_neuron_populations
                  (Dict.set p (new_group p neuron)
                     (neuron_populations (self s))) (self s);
        log := log s ++ [GetModel (md_name neuron);
                         SuperAddNeuronPopulation p n; InitGroup p] |}).
Proof.
  intros Hnever Hb.
  unfold add_neuron_population, bind, getattr, setattr, call, ret.
  rewrite Hb. rewrite !Hnever. cbn [self log].
  repeat rewrite <- app_assoc. reflexivity.
Qed.

Lemma registration_outcomes env s :
  (forall p n neuron,
     match add_neuron_population env p n neuron s with
     | (Raise _, s') => self s' = self s
     | (Ok g, s') =>
         g = new_group p neuron
         /\ self s' = set_neuron_populations
                        (Dict.set p g (neuron_populations (self s))) (self s)
     end)
  /\ (forall p mt d source target wu ps,
        match add_synapse_population env p mt d source target wu ps s with
        | (Raise _, s') => self s' = self s
        | (Ok g, s') =>
            g = new_group p wu
            /\ self s' = set_synapse_populations
                           (Dict.set p g (synapse_populations (self s)))
                           (self s)
        end)
  /\ (forall c model pop,
        match add_current_source env c model pop s with
        | (Raise _, s') => self s' = self s
        | (Ok g, s') =>
            g = new_group c model
            /\ self s' = set_current_sources
                           (Dict.set c g (current_sources (self s))) (self s)
        end)
  /\ (forall c g model,
        match add_custom_update env c g model s with
        | (Raise _, s') => self s' = self s
        | (Ok u, s') =>
            u = new_group c model
            /\ self s' = set_custom_updates
                           (Dict.set c u (custom_updates (self s))) (self s)
        end).
Proof.
  split; [| split; [| split]].
  - intros p n neuron.
    pose proof (add_neuron_population_outcome env p n neuron s) as H.
    unfold wp in H.
    destruct (add_neuron_population env p n neuron s) as [[g | e] s'];
      cbn [fst snd] in H; [ destruct H as [Hg [Hs _]]; auto | exact H ].
  - intros p mt d source target wu ps.
    pose proof (add_synapse_population_outcome env p mt d source target wu ps
                  s) as H.
    unfold wp in H.
    destruct (add_synapse_population env p mt d source target wu ps s)
      as [[g | e] s'];
      cbn [fst snd] in H; [ destruct H as [Hg [Hs _]]; auto | exact H ].
  - intros c model pop.
    pose proof (add_current_source_outcome env c model pop s) as H.
    unfold wp in H.
    destruct (add_current_source env c model pop s) as [[g | e] s'];
      cbn [fst snd] in H; [ destruct H as [Hg [Hs _]]; auto | exact H ].
  - intros c g model.
    pose proof (add_custom_update_outcome env c g model s) as H.
    unfold wp in H.
    destruct (add_custom_update env c g model s) as [[u | e] s'];
      cbn [fst snd] in H; [ destruct H as [Hg [Hs _]]; auto | exact H ].
Qed.

(** ** X1 *)


(** ** X2 *)

(** X2: a neuron population that [add_neuron_population] returned is
    found by its name: validation of that name, in any role, returns the
    very object that was returned; validation of every other name behaves
    as it did before the call. *)
Theorem registered_neuron_population_is_found env p n neuron s g s' :
  add_neuron_population env p n neuron s = (Ok g, s') ->
  (forall context, _validate_neuron_group (PyStr p) context s' = (Ok g, s'))
  /\ (forall q context,
        q <> p ->
        fst (_validate_neuron_group (PyStr q) context s')
        = fst (_validate_neuron_group (PyStr q) context s)).
Proof.
  intros Hadd.
  pose proof (add_neuron_population_outcome env p n neuron s) as H.
  unfold wp in H. rewrite Hadd in H. cbn [fst snd] in H.
  destruct H as [Hg [Hself _]].
  assert (Hreg : neuron_populations (self s')
                 = Dict.set p g (neuron_populations (self s)))
    by (rewrite Hself; reflexivity).
  split.
  - intros context. apply validate_present_name.
    rewrite Hreg. apply dict_get_set_same.
  - intros q context Hq.
    unfold _validate_neuron_group, bind, getattr, subscript, Dict.mem.
    rewrite Hreg. rewrite dict_get_set_other by exact Hq.
    destruct (Dict.get q (neuron_populations (self s))); reflexivity.
Qed.

Lemma registered_neuron_population_is_found_witness :
  _validate_neuron_group (PyStr "pop") "source"
    {| self := Sample.with_egps;
       log := [GetModel "Poisson"; SuperAddNeuronPopulation "pop" 10;
               InitGroup "pop"] |}
  = (Ok (new_group "pop" Sample.neuron_with_egps),
     {| self := Sample.with_egps;
        log := [GetModel "Poisson"; SuperAddNeuronPopulation "pop" 10;
                InitGroup "pop"] |}).
Proof.
  apply (proj1 (registered_neuron_population_is_found Sample.cooperative
                  "pop" 10%Z Sample.neuron_with_egps
                  (Sample.start Sample.fresh)
                  (new_group "pop" Sample.neuron_with_egps)
                  {| self := Sample.with_egps;
                     log := [GetModel "Poisson";
                             SuperAddNeuronPopulation "pop" 10;
                             InitGroup "pop"] |} eq_refl)).
Defined.

(** ** X3 *)

(** X3: on a host where no collaborator raises and on a model that is not
    built, registering a source and a target neuron population and then a
    synapse population that names them succeeds: the native layer is asked
    for the synapse population between exactly those two names, and the
    synapse registry gains the new object while the neuron registry is
    kept. *)
Theorem synapse_population_between_registered_names env pre post n_pre n_post
  neuron_pre neuron_post syn mt d wu ps s :
  never_raises env ->
  _built (self s) = false ->
  let s1 := snd (add_neuron_population env pre n_pre neuron_pre s) in
  let s2 := snd (add_neuron_population env post n_post neuron_post s1) in
  add_synapse_population env syn mt d (PyStr pre) (PyStr post) wu ps s2
  = (Ok (new_group syn wu),
     {| self := set_synapse_populations
                  (Dict.set syn (new_group syn wu)
                     (synapse_populations (self s))) (self s2);
        log := log s2 ++ [SuperAddSynapsePopulation syn pre post] |}).
Proof.
  intros Hnever Hb s1 s2.
  assert (E1 : s1 = snd (add_neuron_population env pre n_pre neuron_pre s))
    by reflexivity.
  rewrite (add_neuron_population_returns env pre n_pre neuron_pre s Hnever Hb)
    in E1. cbn [snd] in E1.
  assert (Hb1 : _built (self s1) = false) by (rewrite E1; exact Hb).
  assert (E2 : s2 = snd (add_neuron_population env post n_post neuron_post s1))
    by reflexivity.
  rewrite (add_neuron_population_returns env post n_post neuron_post s1
             Hnever Hb1) in E2. cbn [snd] in E2.
  assert (Hb2 : _built (self s2) = false) by (rewrite E2; exact Hb1).
  assert (Hpost : Dict.get post (neuron_populations (self s2))
                  = Some (new_group post neuron_post))
    by (rewrite E2; cbn [self neuron_populations set_neuron_populations];
        apply dict_get_set_same).
  assert (Hpre : exists g, Dict.get pre (neuron_populations (self s2)) = Some g
                           /\ g_name g = pre).
  { rewrite E2. cbn [self neuron_populations set_neuron_populations].
    destruct (String.eqb pre post) eqn:E.
    - apply String.eqb_eq in E. subst post.
      rewrite dict_get_set_same. eexists. split; reflexivity.
    - apply String.eqb_neq in E. rewrite dict_get_set_other by exact E.
      rewrite E1. cbn [self neuron_populations set_neuron_populations].
      rewrite dict_get_set_same. eexists. split; reflexivity. }
  destruct Hpre as [g [Hg Hname]].
  unfold add_synapse_population, bind, getattr.
  rewrite Hb2.
  rewrite (validate_present_name "source" pre g s2 Hg).
  rewrite (validate_present_name "target" post _ s2 Hpost).
  unfold call, setattr, ret. rewrite Hnever. cbn [self log g_name new_group].
  rewrite Hname.
  replace (synapse_populations (self s2)) with (synapse_populations (self s))
    by (rewrite E2, E1; reflexivity).
  reflexivity.
Qed.

Lemma synapse_population_between_registered_names_witness :
  fst (add_synapse_population Sample.cooperative "syn" "DENSE" 0
         (PyStr "pre") (PyStr "post") Sample.plain_model Sample.plain_model
         (snd (add_neuron_population Sample.cooperative "post" 10
                 Sample.plain_model
                 (snd (add_neuron_population Sample.cooperative "pre" 10
                         Sample.plain_model (Sample.start Sample.fresh))))))
  = Ok (new_group "syn" Sample.plain_model).
Proof.
  rewrite (synapse_population_between_registered_names Sample.cooperative
             "pre" "post" 10%Z 10%Z Sample.plain_model Sample.plain_model
             "syn" "DENSE" 0%Z Sample.plain_model Sample.plain_model
             (Sample.start Sample.fresh)).
  - reflexivity.
  - intros h c. reflexivity.
  - reflexivity.
Defined.

(** ** What a call may change *)

Ltac unfold_device_op :=
  cbn [run_device_op];
  unfold step_time, custom_update, pull_connectivity_from_device,
    push_spikes_to_device, push_spike_events_to_device,
    push_current_spikes_to_device, push_current_spike_events_to_device,
    push_connectivity_to_device, push_var_to_device,
    push_extra_global_param_to_device, pull_recording_buffers_from_device.

(** [load], the device operations and [end] never touch the registries
    or the backend selection. *)
Lemma load_keeps_description env p n s :
  wp (load env p n)
     (fun _ s' =>
        registries (self s') = registries (self s)
        /\ _backend_name (self s') = _backend_name (self s)
        /\ _backend_module (self s') = _backend_module (self s)) s.
Proof.
  unfold load.
  wp_run_with (fun s' =>
                 registries (self s') = registries (self s)
                 /\ _backend_name (self s') = _backend_name (self s)
                 /\ _backend_module (self s') = _backend_module (self s))
              (fun _ : exn => True);
    unfold registries in *; reg_simpl; auto.
Qed.

Lemma device_op_keeps_instance env d s :
  self (snd (run_device_op env d s)) = self s.
Proof.
  change (wp (run_device_op env d) (fun _ s' => self s' = self s) s).
  destruct d as [| name | p | p | p | p | p | p | p v | p e size |];
    unfold_device_op; wp_run; reflexivity.
Qed.

(** Once the model is built, no call changes the registries or the
    backend selection. *)
Lemma built_description_is_kept env mods o s :
  _built (self s) = true ->
  wp (run_op env mods o)
     (fun _ s' =>
        registries (self s') = registries (self s)
        /\ _backend_name (self s') = _backend_name (self s)
        /\ _backend_module (self s') = _backend_module (self s)) s.
Proof.
  intros Hb.
  destruct o as [b | p n neuron | p mt d src tgt wu ps | c model pop
                | c g model | p f | p n | d | ]; cbn [run_op].
  - unfold wp. rewrite (setter_refused_when_built mods b s Hb). repeat split.
  - apply wp_void. unfold add_neuron_population, bind, getattr, wp.
    rewrite Hb. repeat split.
  - apply wp_void. unfold add_synapse_population, bind, getattr, wp.
    rewrite Hb. repeat split.
  - apply wp_void. unfold add_current_source, bind, getattr, wp.
    rewrite Hb. repeat split.
  - apply wp_void. unfold add_custom_update, bind, getattr, wp.
    rewrite Hb. repeat split.
  - apply wp_void. unfold wp.
    rewrite (build_refused_when_built env p f s Hb). repeat split.
  - apply load_keeps_description.
  - unfold wp. rewrite device_op_keeps_instance. repeat split.
  - unfold wp. rewrite end_raises. repeat split.
Qed.

(** How a call moves the two flags: a [load] that returns sets both, on a
    model that was not loaded; any other call keeps the loaded flag and
    either keeps the built flag or sets it. *)
Lemma flags_after_op env mods o s :
  wp (run_op env mods o)
     (fun r s' =>
        (is_load o && is_ok r = true ->
         _loaded (self s) = false
         /\ _loaded (self s') = true /\ _built (self s') = true)
        /\ (is_load o && is_ok r = false ->
            _loaded (self s') = _loaded (self s)
            /\ (_built (self s') = _built (self s)
                \/ _built (self s') = true))) s.
Proof.
  destruct o as [b | p n neuron | p mt d src tgt wu ps | c model pop
                | c g model | p f | p n | d | ]; cbn [run_op is_load andb].
  - unfold backend_name_setter.
    wp_run; reg_simpl; (split; [ discriminate | auto ]).
  - apply wp_void.
    eapply wp_mono; [| apply add_neuron_population_outcome ].
    intros [g' | e] s' H; cbv beta iota in *;
      (split; [ discriminate | intros _ ]).
    + destruct H as [_ [-> _]]. auto.
    + rewrite H. auto.
  - apply wp_void.
    eapply wp_mono; [| apply add_synapse_population_outcome ].
    intros [g' | e] s' H; cbv beta iota in *;
      (split; [ discriminate | intros _ ]).
    + destruct H as [_ [-> _]]. auto.
    + rewrite H. auto.
  - apply wp_void.
    eapply wp_mono; [| apply add_current_source_outcome ].
    intros [g' | e] s' H; cbv beta iota in *;
      (split; [ discriminate | intros _ ]).
    + destruct H as [_ [-> _]]. auto.
    + rewrite H. auto.
  - apply wp_void.
    eapply wp_mono; [| apply add_custom_update_outcome ].
    intros [g' | e] s' H; cbv beta iota in *;
      (split; [ discriminate | intros _ ]).
    + destruct H as [_ [-> _]]. auto.
    + rewrite H. auto.
  - apply wp_void. unfold build. rewrite genn_is_unbound.
    wp_run; reg_simpl; (split; [ discriminate | auto ]).
  - unfold load.
    wp_run_with (fun s' => _loaded (self s') = _loaded (self s)
                           /\ _built (self s') = _built (self s))
                (fun _ : exn => True);
      cbn [is_ok]; reg_simpl;
      repeat match goal with H : _ /\ _ |- _ => destruct H end;
      try (split; [ discriminate | intros _ ]);
      try (split; [ intros _ | discriminate ]);
      auto; try solve [ intuition congruence ].
  - unfold wp. rewrite device_op_keeps_instance. split;
      [ discriminate | auto ].
  - unfold wp. rewrite end_raises. split; [ discriminate | auto ].
Qed.

(** ** X4 *)

(** X4: the description is frozen once the model is built.  On a built
    model each of the four registration methods raises "GeNN model already
    built" and changes nothing, and through every script of calls of the
    public methods (whose exceptions the caller catches) the four
    registries and the backend selection stay exactly as they were, and the
    model stays built. *)
Theorem description_is_frozen_once_built env mods s :
  _built (self s) = true ->
  (forall p n neuron,
     add_neuron_population env p n neuron s
     = (Raise (PyException "GeNN model already built"), s))
  /\ (forall p mt d source target wu ps,
        add_synapse_population env p mt d source target wu ps s
        = (Raise (PyException "GeNN model already built"), s))
  /\ (forall c model pop,
        add_current_source env c model pop s
        = (Raise (PyException "GeNN model already built"), s))
  /\ (forall c g model,
        add_custom_update env c g model s
        = (Raise (PyException "GeNN model already built"), s))
  /\ (forall ops,
        registries (self (run_script env mods ops s)) = registries (self s)
        /\ _backend_name (self (run_script env mods ops s))
           = _backend_name (self s)
        /\ _backend_module (self (run_script env mods ops s))
           = _backend_module (self s)
        /\ _built (self (run_script env mods ops s)) = true).
Proof.
  intros Hb. repeat apply conj.
  - intros. unfold add_neuron_population, bind, getattr. rewrite Hb.
    reflexivity.
  - intros. unfold add_synapse_population, bind, getattr. rewrite Hb.
    reflexivity.
  - intros. unfold add_current_source, bind, getattr. rewrite Hb.
    reflexivity.
  - intros. unfold add_custom_update, bind, getattr. rewrite Hb.
    reflexivity.
  - intros ops. revert s Hb.
    induction ops as [| o rest IH]; intros s Hb; cbn [run_script].
    + repeat split. exact Hb.
    + pose proof (built_is_kept env mods o s Hb) as Hkeep.
      pose proof (built_description_is_kept env mods o s Hb) as Hsame.
      unfold wp in Hkeep, Hsame.
      destruct Hsame as [Hreg [Hname Hmod]].
      destruct (IH _ Hkeep) as [Hreg' [Hname' [Hmod' Hb']]].
      repeat split; congruence.
Qed.

Lemma description_is_frozen_once_built_witness :
  add_neuron_population Sample.cooperative "pop" 10 Sample.plain_model
    (Sample.start Sample.loaded)
  = (Raise (PyException "GeNN model already built"),
     Sample.start Sample.loaded)
  /\ registries
       (self (run_script Sample.cooperative Sample.backends
                [AddNeuronPopulation "pop" 10 Sample.plain_model;
                 SetBackendName None; Device StepTime; End]
                (Sample.start Sample.loaded)))
     = registries Sample.loaded.
Proof.
  pose proof (description_is_frozen_once_built Sample.cooperative
                Sample.backends (Sample.start Sample.loaded) eq_refl)
    as [Hadd [_ [_ [_ Hscript]]]].
  split.
  - apply Hadd.
  - apply (Hscript [AddNeuronPopulation "pop" 10%Z Sample.plain_model;
                    SetBackendName None; Device StepTime; End]).
Defined.

(** ** X5 *)

(** X5: the two life-cycle flags only advance.  Through every script of
    calls of the public methods: a loaded model stays loaded and a built
    model stays built; if the model satisfied "loaded implies built" before
    (every constructed model does), it does afterwards; and at most one
    [load()] of the script returns. *)
Theorem life_cycle_flags_only_advance env mods ops : forall s,
  (_loaded (self s) = true ->
   _loaded (self (run_script env mods ops s)) = true)
  /\ (_built (self s) = true ->
      _built (self (run_script env mods ops s)) = true)
  /\ ((_loaded (self s) = true -> _built (self s) = true) ->
      _loaded (self (run_script env mods ops s)) = true ->
      _built (self (run_script env mods ops s)) = true)
  /\ load_successes env mods ops s <= (if _loaded (self s) then 0 else 1).
Proof.
  induction ops as [| o rest IH]; intros s;
    cbn [run_script load_successes].
  - repeat split; auto. destruct (_loaded (self s)); lia.
  - pose proof (flags_after_op env mods o s) as H. unfold wp in H.
    destruct (run_op env mods o s) as [r s'] eqn:Hrun. cbn [fst snd] in *.
    destruct (IH s') as [IHl [IHb [IHi IHn]]].
    destruct H as [Hload Hother].
    destruct (is_load o && is_ok r) eqn:E.
    + destruct (Hload eq_refl) as [Hl0 [Hl1 Hb1]].
      rewrite Hl1 in IHn. rewrite Hl0.
      repeat split; auto; try congruence. lia.
    + destruct (Hother eq_refl) as [Hl [Hb | Hb]].
      * rewrite Hl in *. rewrite Hb in *.
        repeat split; auto.
      * rewrite Hl in *.
        repeat split; auto.
Qed.

Lemma life_cycle_flags_only_advance_witness :
  _loaded (self (run_script Sample.cooperative Sample.backends
                   [Load "./" None; Device StepTime; Load "./" None]
                   (Sample.start Sample.loaded))) = true
  /\ _built (self (run_script Sample.cooperative Sample.backends
                     [Load "./" None; Build "./" false]
                     (Sample.start Sample.fresh))) = true.
Proof.
  split.
  - apply (proj1 (life_cycle_flags_only_advance Sample.cooperative
                    Sample.backends
                    [Load "./" None; Device StepTime; Load "./" None]
                    (Sample.start Sample.loaded))).
    reflexivity.
  - apply (proj1 (proj2 (proj2
             (life_cycle_flags_only_advance Sample.cooperative
                Sample.backends [Load "./" None; Build "./" false]
                (Sample.start Sample.fresh))))).
    + intros H. discriminate H.
    + reflexivity.
Defined.

(** ** X6 *)

Lemma validate_synapse_present_name ctx g h s :
  Dict.get g (synapse_populations (self s)) = Some h ->
  _validate_synapse_group (PyStr g) ctx s = (Ok h, s).
Proof.
  intros Hg.
  unfold _validate_synapse_group, bind, getattr, Dict.mem, subscript.
  rewrite Hg. reflexivity.
Qed.

Lemma validate_synapse_missing_name ctx g s :
  Dict.get g (synapse_populations (self s)) = None ->
  _validate_synapse_group (PyStr g) ctx s
  = (Raise (ValueError ("'" +++ ctx +++ "' synapse group '" +++ g
                        +++ "' not found")), s).
Proof.
  intros Hg. unfold _validate_synapse_group, bind, getattr, Dict.mem.
  rewrite Hg. reflexivity.
Qed.

(** X6: what [_validate_neuron_group] and [_validate_synapse_group] do
    with their argument, in any role and without changing anything.  A
    string is looked up in the registry of the method's own kind: a key
    gives the registered object, anything else a ValueError
    ['<role>' <kind> group '<name>' not found].  An object of the method's
    own population class is returned unchecked.  Every other value, a
    population of the other class included, is rejected with
    ['<role>' must be a <Class> or string]. *)
Theorem validation_by_kind_of_argument context s :
  (forall g,
     _validate_neuron_group (PyStr g) context s
     = (match Dict.get g (neuron_populations (self s)) with
        | Some h => Ok h
        | None => Raise (ValueError ("'" +++ context +++ "' neuron group '"
                                     +++ g +++ "' not found"))
        end, s))
  /\ (forall g,
        _validate_synapse_group (PyStr g) context s
        = (match Dict.get g (synapse_populations (self s)) with
           | Some h => Ok h
           | None => Raise (ValueError ("'" +++ context
                                        +++ "' synapse group '" +++ g
                                        +++ "' not found"))
           end, s))
  /\ (forall h,
        _validate_neuron_group (PyNeuronGroup h) context s = (Ok h, s)
        /\ _validate_synapse_group (PySynapseGroup h) context s = (Ok h, s)
        /\ _validate_neuron_group (PySynapseGroup h) context s
           = (Raise (ValueError ("'" +++ context
                                 +++ "' must be a NeuronGroup or string")), s)
        /\ _validate_synapse_group (PyNeuronGroup h) context s
           = (Raise (ValueError ("'" +++ context
                                 +++ "' must be a SynapseGroup or string")),
              s))
  /\ (forall v,
        match v with
        | PyStr _ | PyNeuronGroup _ | PySynapseGroup _ => True
        | _ =>
            _validate_neuron_group v context s
            = (Raise (ValueError ("'" +++ context
                                  +++ "' must be a NeuronGroup or string")),
               s)
            /\ _validate_synapse_group v context s
               = (Raise (ValueError ("'" +++ context
                                     +++ "' must be a SynapseGroup or string")),
                  s)
        end).
Proof.
  repeat apply conj.
  - intros g. destruct (Dict.get g (neuron_populations (self s))) eqn:E.
    + apply validate_present_name. exact E.
    + apply validate_missing_name. exact E.
  - intros g. destruct (Dict.get g (synapse_populations (self s))) eqn:E.
    + apply validate_synapse_present_name. exact E.
    + apply validate_synapse_missing_name. exact E.
  - intros h. repeat split.
  - intros v. destruct v; try exact I; split; reflexivity.
Qed.

(** ** X7 *)

(** X7: assigning [backend_name] on a model that is not built.  A name
    that is a key of the module's dictionary selects that name and its
    module.  A name that is not a key raises KeyError, but only after the
    name was stored: the model is left with the new name and the module it
    had before.  [None] selects the first key of the dictionary and its
    module, and raises AssertionError, changing nothing, when the
    dictionary is empty. *)
Theorem backend_name_assignment mods s :
  _built (self s) = false ->
  (forall b bm,
     Dict.get b mods = Some bm ->
     backend_name_setter mods (Some b) s
     = (Ok tt,
        {| self := set_backend_module bm (set_backend_name b (self s));
           log := log s |}))
  /\ (forall b,
        Dict.get b mods = None ->
        backend_name_setter mods (Some b) s
        = (Raise (KeyError b),
           {| self := set_backend_name b (self s); log := log s |}))
  /\ (forall b bm rest,
        mods = (b, bm) :: rest ->
        backend_name_setter mods None s
        = (Ok tt,
           {| self := set_backend_module bm (set_backend_name b (self s));
              log := log s |}))
  /\ (mods = [] ->
      backend_name_setter mods None s = (Raise AssertionError, s)).
Proof.
  intros Hb. repeat apply conj.
  - intros b bm Hget.
    unfold backend_name_setter, bind, getattr, setattr, subscript.
    rewrite Hb, Hget. reflexivity.
  - intros b Hget.
    unfold backend_name_setter, bind, getattr, setattr, subscript.
    rewrite Hb, Hget. reflexivity.
  - intros b bm rest ->.
    unfold backend_name_setter, bind, getattr, setattr, subscript.
    rewrite Hb. cbn [Dict.keys map fst Dict.get].
    rewrite String.eqb_refl. reflexivity.
  - intros ->. unfold backend_name_setter, bind, getattr. rewrite Hb.
    reflexivity.
Qed.

Lemma backend_name_assignment_witness :
  backend_name_setter Sample.backends_cuda_cpu (Some "cuda")
    (Sample.start Sample.fresh)
  = (Ok tt,
     {| self := set_backend_module Sample.cuda
                  (set_backend_name "cuda" Sample.fresh);
        log := [] |})
  /\ backend_name_setter Sample.backends (Some "cuda")
       (Sample.start Sample.fresh)
     = (Raise (KeyError "cuda"),
        {| self := set_backend_name "cuda" Sample.fresh; log := [] |})
  /\ _backend_module (set_backend_name "cuda" Sample.fresh)
     = Some Sample.cpu
  /\ backend_name_setter Sample.backends None (Sample.start Sample.fresh)
     = (Ok tt,
        {| self := set_backend_module Sample.cpu
                     (set_backend_name "single_threaded_cpu" Sample.fresh);
           log := [] |})
  /\ backend_name_setter [] None (Sample.start Sample.fresh)
     = (Raise AssertionError, Sample.start Sample.fresh).
Proof.
  pose proof (backend_name_assignment Sample.backends_cuda_cpu
                (Sample.start Sample.fresh) eq_refl) as [Hknown _].
  pose proof (backend_name_assignment Sample.backends
                (Sample.start Sample.fresh) eq_refl)
    as [_ [Hunknown [Hdefault _]]].
  pose proof (backend_name_assignment []
                (Sample.start Sample.fresh) eq_refl) as [_ [_ [_ Hempty]]].
  repeat apply conj.
  - apply Hknown. reflexivity.
  - apply Hunknown. reflexivity.
  - reflexivity.
  - apply (Hdefault "single_threaded_cpu" Sample.cpu []). reflexivity.
  - apply Hempty. reflexivity.
Defined.

(** ** X8 *)

(** X8: the module-level import loop in closed form.  If the import of
    some backend raises anything but ImportError, importing [genn_model]
    fails with what the first such backend (in the order cuda,
    single_threaded_cpu, opencl) raised, even when a backend before it
    imported.  Otherwise [backend_modules] holds exactly the backends that
    imported, each with its module, in that order. *)
Theorem import_loop_result import_module :
  import_backends import_module backend_preference []
  = match find (raises_other import_module) backend_preference with
    | Some b => inl (ExternalError (ImportModule b))
    | None => inr (imported_backends import_module backend_preference)
    end.
Proof.
  unfold backend_preference, raises_other, imported_backends.
  cbn [import_backends find flat_map].
  destruct (import_module "cuda");
    destruct (import_module "single_threaded_cpu");
    destruct (import_module "opencl"); reflexivity.
Qed.

(** ** X9 *)

Lemma init_returns mods precision model_name backend b bm time_precision
  level kwargs :
  let tp := checked_precision precision time_precision in
  tp = "float" \/ tp = "double" ->
  match backend with
  | Some n => n = b /\ Dict.get n mods = Some bm
  | None => exists rest, mods = (b, bm) :: rest
  end ->
  construct mods precision model_name backend time_precision level kwargs
  = Ok (constructed precision model_name b bm time_precision level kwargs).
Proof.
  intros tp Htp Hbackend. subst tp. unfold construct, constructed.
  destruct time_precision as [t |]; cbn [checked_precision] in *;
    destruct Htp as [-> | ->];
    (destruct backend as [n |];
     [ destruct Hbackend as [-> Hget] | destruct Hbackend as [rest ->] ]);
    init_compute; rewrite ?Hget, ?String.eqb_refl; cbn;
    try destruct (String.eqb precision "float"); reflexivity.
Qed.

(** X9: what the constructor decides, and in which order.  The time
    precision ([time_precision], or [precision] when it is omitted) is
    checked first: a value other than "float" and "double" ends the
    construction with IndexError (the message template of line 126
    cannot be formatted), whatever the backend argument.  With an accepted
    time precision and a backend that resolves, the constructor returns a
    model that is neither built nor loaded, has empty registries, keeps the
    keyword arguments as preferences, uses the float or double runtime
    class after the time precision, and maps the scalar type to float32
    exactly when [precision] is "float" and to float64 otherwise. *)
Theorem constructor_outcome mods precision model_name backend time_precision
  level kwargs :
  let tp := checked_precision precision time_precision in
  (tp <> "float" -> tp <> "double" ->
   construct mods precision model_name backend time_precision level kwargs
   = Raise IndexError)
  /\ (forall b bm,
        tp = "float" \/ tp = "double" ->
        match backend with
        | Some n => n = b /\ Dict.get n mods = Some bm
        | None => exists rest, mods = (b, bm) :: rest
        end ->
        construct mods precision model_name backend time_precision level
          kwargs
        = Ok (constructed precision model_name b bm time_precision level
                kwargs)).
Proof.
  intros tp. split.
  - intros Hf Hd. rewrite construct_of_init.
    rewrite (init_rejected_precision mods precision model_name backend
               time_precision level kwargs
               {| self := new_instance; log := [] |} Hf Hd).
    reflexivity.
  - intros b bm Htp Hbackend. apply init_returns; assumption.
Qed.

Lemma constructor_outcome_witness :
  construct [] "long double" "GeNNModel" (Some "cuda") None 0 []
  = Raise IndexError
  /\ construct Sample.backends_cuda_cpu "double" "net"
       (Some "single_threaded_cpu") (Some "float") 2
       [("debugCode", PyBool true)]
     = Ok (constructed "double" "net" "single_threaded_cpu" Sample.cpu
             (Some "float") 2 [("debugCode", PyBool true)]).
Proof.
  split.
  - apply (proj1 (constructor_outcome [] "long double" "GeNNModel"
                    (Some "cuda") None 0%Z [])); discriminate.
  - apply (proj2 (constructor_outcome Sample.backends_cuda_cpu "double"
                    "net" (Some "single_threaded_cpu") (Some "float") 2%Z
                    [("debugCode", PyBool true)])).
    + left. reflexivity.
    + split; reflexivity.
Defined.

(** ** X10 *)






(** ** X11 *)



(** ** X12 *)

(** A loop of calls on a host where none of them raises. *)
Lemma for_each_call_map A env (f : A -> event) xs : forall s,
  never_raises env ->
  for_each xs (fun x => call env (f x)) s
  = (Ok tt, {| self := self s; log := log s ++ map f xs |}).
Proof.
  intros s Hnever. revert s.
  induction xs as [| x rest IH]; intros s; cbn [for_each map].
  - unfold ret. rewrite app_nil_r. destruct s; reflexivity.
  - unfold bind at 1, call at 1. rewrite Hnever.
    rewrite IH. cbn [self log]. rewrite <- app_assoc. reflexivity.
Qed.

Lemma load_runs_its_trace env p n s :
  never_raises env ->
  _loaded (self s) = false ->
  (recording_in_use (self s) = true -> n <> None) ->
  load env p n s
  = (Ok tt,
     {| self := set_built true (set_loaded true
                                  (set_path_to_model p (self s)));
        log := log s ++ load_trace (self s) p n |}).
Proof.
  intros Hnever Hl Hn.
  assert (Hcall : forall ev s1,
             call env ev s1
             = (Ok tt, {| self := self s1; log := log s1 ++ [ev] |}))
    by (intros ev s1; unfold call; rewrite Hnever; reflexivity).
  unfold load, load_trace.
  unfold bind at 1, getattr at 1. rewrite Hl.
  unfold bind at 1, setattr at 1.
  unfold bind at 1, getattr_opt at 1.
  cbn [self _path_to_model set_path_to_model].
  unfold bind at 1, getattr at 1.
  unfold bind at 1. rewrite Hcall.
  unfold bind at 1. rewrite Hcall.
  unfold bind at 1, getattr at 1.
  cbn [self log].
  change (recording_in_use (set_path_to_model p (self s)))
    with (recording_in_use (self s)).
  change (model_name (set_path_to_model p (self s)))
    with (model_name (self s)).
  assert (Hrec :
    (if recording_in_use (self s)
     then match n with
          | Some n0 => call env (SlmAllocateRecordingBuffers n0)
          | None =>
              raise (PyException
                       ("Cannot use recording system without passing "
                        +++ "number of recording timesteps to GeNNModel.load"))
          end
     else ret tt)
      {| self := set_path_to_model p (self s);
         log := (log s ++ [SlmOpen p (model_name (self s))])
                ++ [SlmAllocateMem] |}
    = (Ok tt,
       {| self := set_path_to_model p (self s);
          log := ((log s ++ [SlmOpen p (model_name (self s))])
                  ++ [SlmAllocateMem])
                 ++ (if recording_in_use (self s)
                     then match n with
                          | Some n0 => [SlmAllocateRecordingBuffers n0]
                          | None => []
                          end
                     else []) |})).
  { destruct (recording_in_use (self s)) eqn:Hrec.
    - destruct n as [k |]; [| exfalso; apply Hn; reflexivity ].
      rewrite Hcall. reflexivity.
    - unfold ret. rewrite app_nil_r. reflexivity. }
  unfold bind at 1. rewrite Hrec. clear Hrec.
  repeat (unfold bind at 1;
          first [ rewrite for_each_call_map by exact Hnever
                | rewrite Hcall
                | unfold getattr at 1
                | unfold setattr at 1 ];
          cbn [self log]).
  cbn [neuron_populations synapse_populations current_sources custom_updates
       set_path_to_model set_loaded].
  unfold setattr. cbn [self log].
  repeat rewrite <- app_assoc. reflexivity.
Qed.

(** X12: the order of a [load()] that succeeds.  On a host where no
    collaborator raises, [load()] on a model that is not loaded (with a
    count if the recording system is in use) makes exactly these calls, in
    this order: [open], [allocate_mem], [allocate_recording_buffers] if
    recording is in use, [load_init_egps] of every neuron population, then
    of every synapse population, current source and custom update (each
    registry in insertion order), [initialize], [load] of every population
    in the same four passes (the neuron populations receive the count),
    and [initialize_sparse].  It then marks the model loaded and built and
    remembers the path. *)
Theorem load_makes_its_calls_in_order env p n s :
  never_raises env ->
  _loaded (self s) = false ->
  (recording_in_use (self s) = true -> n <> None) ->
  load env p n s
  = (Ok tt,
     {| self := set_built true (set_loaded true
                                  (set_path_to_model p (self s)));
        log := log s ++ load_trace (self s) p n |}).
Proof. apply load_runs_its_trace. Qed.

Lemma load_makes_its_calls_in_order_witness :
  load Sample.cooperative "./" (Some 5%Z)
    (Sample.start (set_synapse_populations
                     [("syn", new_group "syn" Sample.plain_model)]
                     Sample.with_egps))
  = (Ok tt,
     {| self := set_built true
                  (set_loaded true
                     (set_path_to_model "./"
                        (set_synapse_populations
                           [("syn", new_group "syn" Sample.plain_model)]
                           Sample.with_egps)));
        log := [SlmOpen "./" "GeNNModel"; SlmAllocateMem;
                GroupLoadInitEgps Neuron "pop";
                GroupLoadInitEgps Synapse "syn"; SlmInitialize;
                NeuronGroupLoad "pop" (Some 5%Z); GroupLoad Synapse "syn";
                SlmInitializeSparse] |}).
Proof.
  apply (load_makes_its_calls_in_order Sample.cooperative "./" (Some 5%Z)
           (Sample.start (set_synapse_populations
                            [("syn", new_group "syn" Sample.plain_model)]
                            Sample.with_egps))).
  - intros h c. reflexivity.
  - reflexivity.
  - intros H. discriminate H.
Defined.

(** ** X13 *)

Lemma load_failure_keeps_flags env p n s :
  wp (load env p n)
     (fun r s' =>
        is_ok r = false ->
        _loaded (self s') = _loaded (self s)
        /\ _built (self s') = _built (self s)) s.
Proof.
  unfold load.
  wp_run_with (fun s' => _loaded (self s') = _loaded (self s)
                         /\ _built (self s') = _built (self s))
              (fun _ : exn => True);
    cbn [is_ok]; reg_simpl;
    repeat match goal with H : _ /\ _ |- _ => destruct H end;
    try (intros Hok; try discriminate Hok); auto;
    try solve [ intuition congruence ].
Qed.

(** X13: what [load()] leaves alone.  In every case it leaves the four
    registries and the backend selection as they were.  When it raises,
    at its guard or at any call it makes, the loaded and the built flag
    are as before, so the model is not half-loaded and [load()] can be
    called again; only the remembered path may have changed. *)
Theorem load_failure_leaves_the_model_unloaded env p n s :
  registries (self (snd (load env p n s))) = registries (self s)
  /\ _backend_name (self (snd (load env p n s))) = _backend_name (self s)
  /\ _backend_module (self (snd (load env p n s))) = _backend_module (self s)
  /\ (is_ok (fst (load env p n s)) = false ->
      _loaded (self (snd (load env p n s))) = _loaded (self s)
      /\ _built (self (snd (load env p n s))) = _built (self s)).
Proof.
  destruct (load_keeps_description env p n s) as [Hreg [Hname Hmod]].
  repeat split; auto; apply (load_failure_keeps_flags env p n s H).
Qed.

Lemma load_failure_leaves_the_model_unloaded_witness :
  _loaded (self (snd (load Sample.cooperative "./" None
                        (Sample.start Sample.recording)))) = false
  /\ _built (self (snd (load Sample.cooperative "./" None
                          (Sample.start Sample.recording)))) = false.
Proof.
  apply (proj2 (proj2 (proj2
           (load_failure_leaves_the_model_unloaded Sample.cooperative "./"
              None (Sample.start Sample.recording))))).
  reflexivity.
Defined.

(** ** X14 *)

(** X14: the device operations are pure forwarding.  None of them ever
    changes the instance.  On a loaded model (whose description uses the
    recording system, for [pull_recording_buffers_from_device]) each makes
    exactly one runtime call, the primitive of its own name with the
    arguments it was given (size 1 for an omitted size), and returns
    exactly when that call returns. *)
Theorem device_operations_forward_one_call env d s :
  self (snd (run_device_op env d s)) = self s
  /\ (_loaded (self s) = true ->
      (needs_recording d = true -> recording_in_use (self s) = true) ->
      run_device_op env d s
      = ((if raises env (log s ++ warnings_of d) (runtime_call_of d)
          then Raise (ExternalError (runtime_call_of d))
          else Ok tt),
         {| self := self s;
            log := log s ++ warnings_of d ++ [runtime_call_of d] |})).
Proof.
  split; [ apply device_op_keeps_instance |].
  intros Hl Hrec.
  destruct d as [| name | p | p | p | p | p | p | p v | p e [k |] |];
    unfold_device_op;
    unfold bind, getattr, call, warn, emit, ret;
    cbn [self log warnings_of runtime_call_of needs_recording app] in *;
    rewrite ?Hl; cbn [negb self log]; rewrite ?app_nil_r.
  12: rewrite (Hrec eq_refl); cbn [negb].
  11: { change (Warn "DeprecationWarning"
                  ("The default of size=1 is very counter-intuitive and "
                   +++ "will be removed in future"))
          with size_default_warning.
        rewrite <- app_assoc. cbn [app].
        destruct (raises env (log s ++ [size_default_warning])
                    (SlmPushExtraGlobalParam p e 1)); reflexivity. }
  all: match goal with
       | |- context [raises ?e ?h ?c] => destruct (raises e h c)
       end; reflexivity.
Qed.

Lemma device_operations_forward_one_call_witness :
  run_device_op Sample.cooperative (PushVarToDevice "pop" "V")
    (Sample.start Sample.loaded)
  = (Ok tt,
     {| self := Sample.loaded; log := [SlmPushVarToDevice "pop" "V"] |}).
Proof.
  apply (proj2 (device_operations_forward_one_call Sample.cooperative
                  (PushVarToDevice "pop" "V") (Sample.start Sample.loaded))).
  - reflexivity.
  - intros H. discriminate H.
Defined.

(** ** X15 *)

(** X15: the simulation loop.  On a loaded model and a host whose runtime
    does not raise, [n] calls of [step_time()] in a row all return, ask the
    runtime for exactly [n] steps and nothing else, and leave the instance
    unchanged. *)
Theorem stepping_n_times env n s :
  _loaded (self s) = true ->
  runtime_reliable env ->
  step_times env n s
  = (Ok tt, {| self := self s; log := log s ++ repeat SlmStepTime n |}).
Proof.
  intros Hl Hrel. revert s Hl.
  induction n as [| k IH]; intros s Hl; cbn [step_times repeat].
  - unfold ret. rewrite app_nil_r. destruct s; reflexivity.
  - unfold bind at 1, step_time, bind, getattr, call.
    rewrite Hl. cbn [negb]. rewrite Hrel by reflexivity.
    rewrite IH by exact Hl. cbn [self log].
    rewrite <- app_assoc. reflexivity.
Qed.

Lemma stepping_n_times_witness :
  step_times Sample.cooperative 100 (Sample.start Sample.loaded)
  = (Ok tt,
     {| self := Sample.loaded; log := [] ++ repeat SlmStepTime 100 |}).
Proof.
  apply (stepping_n_times Sample.cooperative 100
           (Sample.start Sample.loaded)).
  - reflexivity.
  - intros h c _. reflexivity.
Defined.

(** ** X16 *)

(** X16: the loops of [end()] (lines 622-627), taken by themselves.
    Given one registry and a runtime that does not raise, they request the
    release of exactly the extra global parameters whose [needsAllocation]
    flag is set, each under the name of its group and its own name, in
    registry order, and of no caller-managed parameter; the instance is
    not changed. *)
Theorem teardown_loops_free_runtime_allocated_parameters env group s :
  runtime_reliable env ->
  free_group_egps env group s
  = (Ok tt, {| self := self s; log := log s ++ frees_of group |})
  /\ (forall g egp,
        In (SlmFreeExtraGlobalParam g egp) (frees_of group) <->
        exists g_dat egp_dat,
          In (g, g_dat) group
          /\ In (egp, egp_dat) (extra_global_params g_dat)
          /\ needsAllocation egp_dat = true).
Proof.
  intros Hrel. split.
  - apply free_group_egps_frees. exact Hrel.
  - intros g egp. unfold frees_of. rewrite in_flat_map. split.
    + intros [[g' g_dat] [Hin Hmap]]. cbn [fst snd] in Hmap.
      apply in_map_iff in Hmap. destruct Hmap as [[e e_dat] [Heq Hf]].
      cbn [fst snd] in Heq. inversion Heq; subst.
      apply filter_In in Hf. destruct Hf as [He Hneeds].
      exists g_dat, e_dat. auto.
    + intros [g_dat [e_dat [Hg [He Hneeds]]]].
      exists (g, g_dat). split; [ exact Hg |]. cbn [fst snd].
      apply in_map_iff. exists (egp, e_dat). split; [ reflexivity |].
      apply filter_In. auto.
Qed.

Lemma teardown_loops_free_runtime_allocated_parameters_witness :
  free_group_egps Sample.cooperative (neuron_populations Sample.with_egps)
    (Sample.start Sample.with_egps)
  = (Ok tt,
     {| self := Sample.with_egps;
        log := [] ++ frees_of (neuron_populations Sample.with_egps) |}).
Proof.
  apply (proj1 (teardown_loops_free_runtime_allocated_parameters
                  Sample.cooperative (neuron_populations Sample.with_egps)
                  (Sample.start Sample.with_egps)
                  (fun h c _ => eq_refl))).
Defined.

(** ** Module-level functions *)

Lemma prepare_snippet_is_unbound :
  load_global "prepare_snippet" = raise (NameError "prepare_snippet").
Proof. reflexivity. Qed.

Lemma genn_wrapper_is_unbound :
  load_global "genn_wrapper" = raise (NameError "genn_wrapper").
Proof. reflexivity. Qed.

Lemma CustomUpdate_is_unbound :
  load_global "CustomUpdate" = raise (NameError "CustomUpdate").
Proof. reflexivity. Qed.

Lemma custom_body_is_unbound :
  load_global "custom_body" = raise (NameError "custom_body").
Proof. reflexivity. Qed.

Lemma create_custom_model_class_is_bound :
  load_global "create_custom_model_class"
  = ret (PyOpaque "create_custom_model_class").
Proof. reflexivity. Qed.

Lemma class_factory_tail_raises external class_name body s :
  call_create_custom_model_class external class_name body s
  = (Raise (NameError "genn_wrapper"), s).
Proof.
  unfold call_create_custom_model_class.
  rewrite create_custom_model_class_is_bound, genn_wrapper_is_unbound.
  reflexivity.
Qed.

(** ** X17 *)

(** X17: the three initialiser helpers cannot be used.  [init_var],
    [init_connectivity] and [init_toeplitz_connectivity] raise NameError
    for [prepare_snippet], a name the module never binds, for every
    argument and whatever the native layer would do, before they call
    anything. *)
Theorem initialiser_helpers_raise_name_error external snippet param_space s :
  init_var external snippet param_space s
  = (Raise (NameError "prepare_snippet"), s)
  /\ init_connectivity external snippet param_space s
     = (Raise (NameError "prepare_snippet"), s)
  /\ init_toeplitz_connectivity external snippet param_space s
     = (Raise (NameError "prepare_snippet"), s).
Proof.
  unfold init_var, init_connectivity, init_toeplitz_connectivity.
  rewrite prepare_snippet_is_unbound. repeat split.
Qed.

(** ** X18 *)

(** X18: the variable-reference helpers cannot be used.
    [create_var_ref], [create_psm_var_ref], [create_wu_pre_var_ref] and
    [create_wu_post_var_ref] raise NameError for [genn_wrapper], and
    [create_wu_var_ref] raises NameError for [CustomUpdate] (line 788 tests
    against a class the module does not import), for every argument and
    before any native call. *)
Theorem variable_reference_helpers_raise_name_error external pop var_name
  tp_sg tp_var_name s :
  create_var_ref external pop var_name s
  = (Raise (NameError "genn_wrapper"), s)
  /\ create_psm_var_ref external pop var_name s
     = (Raise (NameError "genn_wrapper"), s)
  /\ create_wu_pre_var_ref external pop var_name s
     = (Raise (NameError "genn_wrapper"), s)
  /\ create_wu_post_var_ref external pop var_name s
     = (Raise (NameError "genn_wrapper"), s)
  /\ create_wu_var_ref external pop var_name tp_sg tp_var_name s
     = (Raise (NameError "CustomUpdate"), s).
Proof.
  unfold create_var_ref, create_psm_var_ref, create_wu_pre_var_ref,
    create_wu_post_var_ref, create_wu_var_ref.
  rewrite genn_wrapper_is_unbound, CustomUpdate_is_unbound. repeat split.
Qed.

(** ** X19 *)

(** X19: the class factories that take [custom_body]
    ([create_custom_neuron_class], [create_custom_postsynaptic_class],
    [create_custom_weight_update_class]) never return a class.  A
    [custom_body] that is neither a dict nor None is rejected first, with
    ValueError (without a message in the postsynaptic factory); otherwise
    the factory assembles the body and then raises NameError for
    [genn_wrapper] while it evaluates the arguments of
    [create_custom_model_class], whatever the other arguments are. *)
Theorem class_factories_raise external class_name param_names var_name_types
  derived_params pre_vars post_vars extra_global_params additional_input_vars
  c1 c2 c3 c4 c5 c6 c7 c8 c9 c10 c11 c12 b1 b2 b3 b4 b5 b6 custom_body s :
  create_custom_neuron_class external class_name param_names var_name_types
    derived_params c1 c2 c3 c4 extra_global_params additional_input_vars b1
    custom_body s
  = (Raise (if bad_custom_body custom_body
            then ValueError "custom_body must be an isinstance of dict or None"
            else NameError "genn_wrapper"), s)
  /\ create_custom_postsynaptic_class external class_name param_names
       var_name_types derived_params c1 c2 c3 custom_body s
     = (Raise (if bad_custom_body custom_body then ValueError ""
               else NameError "genn_wrapper"), s)
  /\ create_custom_weight_update_class external class_name param_names
       var_name_types pre_vars post_vars derived_params
       c1 c2 c3 c4 c5 c6 c7 c8 c9 c10 c11 c12 extra_global_params
       b1 b2 b3 b4 b5 b6 custom_body s
     = (Raise (if bad_custom_body custom_body
               then ValueError
                      "custom_body must be an instance of dict or None"
               else NameError "genn_wrapper"), s).
Proof.
  unfold create_custom_neuron_class, create_custom_postsynaptic_class,
    create_custom_weight_update_class.
  destruct (bad_custom_body custom_body); cbv zeta;
    rewrite ?class_factory_tail_raises; repeat split.
Qed.

(** ** X20 *)

(** X20: the remaining factories fail on a bare name.
    [create_custom_current_source_class] and
    [create_custom_custom_update_class] test a [custom_body] they have no
    parameter for and raise NameError for it in their first statement;
    [create_custom_init_var_snippet_class],
    [create_custom_sparse_connect_init_snippet_class], [create_dpf_class],
    [create_cmlf_class] and [create_cksf_class] raise NameError for
    [genn_wrapper]; all of them for every argument. *)
Theorem remaining_factories_raise_name_error external class_name param_names
  var_name_types derived_params var_refs extra_global_params state_vars1
  state_vars2 code1 code2 f1 f2 f3 func s :
  create_custom_current_source_class external class_name param_names
    var_name_types derived_params code1 extra_global_params s
  = (Raise (NameError "custom_body"), s)
  /\ create_custom_custom_update_class external class_name param_names
       var_name_types derived_params var_refs code1 extra_global_params s
     = (Raise (NameError "custom_body"), s)
  /\ create_custom_init_var_snippet_class external class_name param_names
       derived_params code1 extra_global_params s
     = (Raise (NameError "genn_wrapper"), s)
  /\ create_custom_sparse_connect_init_snippet_class external class_name
       param_names derived_params code1 state_vars1 code2 state_vars2
       f1 f2 f3 extra_global_params s
     = (Raise (NameError "genn_wrapper"), s)
  /\ create_dpf_class external func s = (Raise (NameError "genn_wrapper"), s)
  /\ create_cmlf_class external func s = (Raise (NameError "genn_wrapper"), s)
  /\ create_cksf_class external func s = (Raise (NameError "genn_wrapper"), s).
Proof.
  unfold create_custom_current_source_class,
    create_custom_custom_update_class, create_custom_init_var_snippet_class,
    create_custom_sparse_connect_init_snippet_class, create_dpf_class,
    create_cmlf_class, create_cksf_class.
  cbv zeta.
  rewrite custom_body_is_unbound, genn_wrapper_is_unbound,
    ?class_factory_tail_raises.
  repeat split.
Qed.

(** ** Well-formed registries *)

Lemma dict_mem_in_keys V k (d : Dict.t V) :
  Dict.mem k d = true <-> In k (Dict.keys d).
Proof.
  unfold Dict.mem, Dict.keys.
  induction d as [| [k' v'] r IH]; cbn [Dict.get map fst In].
  - split; [ discriminate | contradiction ].
  - destruct (String.eqb k k') eqn:E.
    + apply String.eqb_eq in E. subst. split; auto.
    + apply String.eqb_neq in E. rewrite IH. split.
      * auto.
      * intros [H | H]; [ congruence | exact H ].
Qed.

Lemma dict_keys_set V k (v : V) d :
  Dict.keys (Dict.set k v d)
  = if Dict.mem k d then Dict.keys d else Dict.keys d ++ [k].
Proof.
  destruct (Dict.mem k d) eqn:E.
  - apply dict_keys_set_present. exact E.
  - apply dict_keys_set_absent. exact E.
Qed.

Lemma registry_ok_empty : registry_ok [].
Proof. split; [ constructor | intros k g [] ]. Qed.

Lemma registry_ok_set d p g :
  registry_ok d -> g_name g = p -> registry_ok (Dict.set p g d).
Proof.
  intros [Hnodup Hnames] Hg. split.
  - rewrite dict_keys_set. destruct (Dict.mem p d) eqn:E; [ exact Hnodup |].
    assert (Hnot : ~ In p (Dict.keys d)).
    { intros Hin. apply dict_mem_in_keys in Hin. congruence. }
    clear E. unfold Dict.keys in *.
    induction (map fst d) as [| k ks IH]; cbn [app].
    + constructor; [ intros [] | constructor ].
    + inversion Hnodup; subst. constructor.
      * rewrite in_app_iff. cbn [In]. intros [H | [H | []]].
        -- contradiction.
        -- apply Hnot. left. congruence.
      * apply IH; [ assumption |]. intros H. apply Hnot. right. exact H.
  - clear Hnodup. induction d as [| [k0 v0] r IH]; cbn [Dict.set].
    + intros k g' [H | []]. inversion H; subst. reflexivity.
    + destruct (String.eqb p k0) eqn:E; intros k g' [H | H].
      * inversion H; subst. reflexivity.
      * apply Hnames. right. exact H.
      * apply Hnames. left. exact H.
      * apply IH; [| exact H ]. intros k1 g1 H1. apply Hnames. right.
        exact H1.
Qed.

Lemma setter_keeps_registries mods b s :
  registries (self (snd (backend_name_setter mods b s))) = registries (self s).
Proof.
  change (wp (backend_name_setter mods b)
            (fun _ s' => registries (self s') = registries (self s)) s).
  unfold backend_name_setter. wp_run; reflexivity.
Qed.

Lemma build_keeps_registries env p f s :
  registries (self (snd (build env p f s))) = registries (self s).
Proof.
  change (wp (build env p f)
            (fun _ s' => registries (self s') = registries (self s)) s).
  unfold build. rewrite genn_is_unbound. wp_run; reflexivity.
Qed.

Lemma registries_ok_of_equal m m' :
  registries m' = registries m -> registries_ok m -> registries_ok m'.
Proof.
  unfold registries, registries_ok. intros H. inversion H.
  rewrite H1, H2, H3, H4. auto.
Qed.

Lemma registries_ok_after_op env mods o s :
  registries_ok (self s) -> registries_ok (self (snd (run_op env mods o s))).
Proof.
  intros Hok.
  destruct (registration_outcomes env s)
    as [Hneuron [Hsynapse [Hsource Hupdate]]].
  destruct o as [b | p n neuron | p mt d src tgt wu ps | c model pop
                | c g model | p f | p n | d | ]; cbn [run_op].
  - apply (registries_ok_of_equal (self s)); [| exact Hok ].
    apply setter_keeps_registries.
  - specialize (Hneuron p n neuron). unfold void.
    destruct (add_neuron_population env p n neuron s) as [[g | e] s'];
      cbn [snd].
    + destruct Hneuron as [-> ->].
      destruct Hok as [H1 [H2 [H3 H4]]].
      repeat split; try apply H2; try apply H3; try apply H4;
        apply (registry_ok_set _ p (new_group p neuron) H1 eq_refl).
    + rewrite Hneuron. exact Hok.
  - specialize (Hsynapse p mt d src tgt wu ps). unfold void.
    destruct (add_synapse_population env p mt d src tgt wu ps s)
      as [[g | e] s']; cbn [snd].
    + destruct Hsynapse as [-> ->].
      destruct Hok as [H1 [H2 [H3 H4]]].
      repeat split; try apply H1; try apply H3; try apply H4;
        apply (registry_ok_set _ p (new_group p wu) H2 eq_refl).
    + rewrite Hsynapse. exact Hok.
  - specialize (Hsource c model pop). unfold void.
    destruct (add_current_source env c model pop s) as [[g | e] s'];
      cbn [snd].
    + destruct Hsource as [-> ->].
      destruct Hok as [H1 [H2 [H3 H4]]].
      repeat split; try apply H1; try apply H2; try apply H4;
        apply (registry_ok_set _ c (new_group c model) H3 eq_refl).
    + rewrite Hsource. exact Hok.
  - specialize (Hupdate c g model). unfold void.
    destruct (add_custom_update env c g model s) as [[u | e] s']; cbn [snd].
    + destruct Hupdate as [-> ->].
      destruct Hok as [H1 [H2 [H3 H4]]].
      repeat split; try apply H1; try apply H2; try apply H3;
        apply (registry_ok_set _ c (new_group c model) H4 eq_refl).
    + rewrite Hupdate. exact Hok.
  - apply (registries_ok_of_equal (self s)); [| exact Hok ].
    unfold void.
    pose proof (build_keeps_registries env p f s) as H.
    destruct (build env p f s) as [[v | e] s']; exact H.
  - apply (registries_ok_of_equal (self s)); [| exact Hok ].
    apply (load_keeps_description env p n s).
  - rewrite device_op_keeps_instance. exact Hok.
  - rewrite end_raises. exact Hok.
Qed.

(** ** X21 *)

(** X21: the registries stay well formed.  Starting from a model whose
    registries hold no name twice and hold every population under its own
    name (a newly constructed model, whose registries are empty, is one),
    every script of calls of the public methods leaves the four registries
    in that shape, whichever calls raise. *)
Theorem registries_stay_well_formed env mods ops : forall s,
  registries_ok (self s) ->
  registries_ok (self (run_script env mods ops s)).
Proof.
  induction ops as [| o rest IH]; intros s Hok; cbn [run_script].
  - exact Hok.
  - apply IH. apply registries_ok_after_op. exact Hok.
Qed.

Lemma registries_stay_well_formed_witness :
  registries_ok
    (self (run_script Sample.cooperative Sample.backends
             [AddNeuronPopulation "pop" 10 Sample.neuron_with_egps;
              AddNeuronPopulation "pop" 20 Sample.plain_model;
              AddSynapsePopulation "syn" "DENSE" 0 (PyStr "pop")
                (PyStr "pop") Sample.plain_model Sample.plain_model;
              Load "./" None]
             (Sample.start Sample.fresh))).
Proof.
  apply (registries_stay_well_formed Sample.cooperative Sample.backends).
  repeat split; try constructor; intros k g [].
Defined.

(** ** X22 *)

(** X22: this layer checks no name for uniqueness.  On a model that is
    not built and a host where no collaborator raises,
    [add_neuron_population] under a name that is already registered
    reaches the native layer like any other call and, when that returns,
    replaces the registered object in place: the registry keeps its names
    and their order, and the name now gives the new object. *)
Theorem registering_a_name_again_replaces_the_entry env p n neuron s :
  never_raises env ->
  _built (self s) = false ->
  Dict.mem p (neuron_populations (self s)) = true ->
  let s' := snd (add_neuron_population env p n neuron s) in
  fst (add_neuron_population env p n neuron s) = Ok (new_group p neuron)
  /\ log s' = log s ++ [GetModel (md_name neuron);
                        SuperAddNeuronPopulation p n; InitGroup p]
  /\ Dict.keys (neuron_populations (self s'))
     = Dict.keys (neuron_populations (self s))
  /\ Dict.get p (neuron_populations (self s')) = Some (new_group p neuron).
Proof.
  intros Hnever Hb Hmem s'. subst s'.
  rewrite (add_neuron_population_returns env p n neuron s Hnever Hb).
  cbn [fst snd self log neuron_populations set_neuron_populations].
  repeat split.
  - apply dict_keys_set_present. exact Hmem.
  - apply dict_get_set_same.
Qed.

Lemma registering_a_name_again_replaces_the_entry_witness :
  Dict.keys (neuron_populations
               (self (snd (add_neuron_population Sample.cooperative "pop" 20
                             Sample.plain_model
                             (Sample.start Sample.with_egps)))))
  = ["pop"]
  /\ Dict.get "pop"
       (neuron_populations
          (self (snd (add_neuron_population Sample.cooperative "pop" 20
                        Sample.plain_model
                        (Sample.start Sample.with_egps)))))
     = Some (new_group "pop" Sample.plain_model).
Proof.
  destruct (registering_a_name_again_replaces_the_entry Sample.cooperative
              "pop" 20%Z Sample.plain_model (Sample.start Sample.with_egps)
              (fun h c => eq_refl) eq_refl eq_refl) as [_ [_ [Hkeys Hget]]].
  split; [ exact Hkeys | exact Hget ].
Defined.

(** ** Initial segments of the log *)






Lemma is_prefix_app_nil_l l1 l2 rest :
  is_prefix l1 l2 -> is_prefix l1 (l2 ++ rest).
Proof.
  intros [r ->]. exists (r ++ rest). apply eq_sym, app_assoc.
Qed.





(** ** X23 *)

